(** * The dnscat2 client session layer (client/session.c)

    A shallow embedding of the session state machine: connection
    establishment, acknowledgement processing and teardown.  The two
    callbacks of a session and the calls to [exit] are made explicit: every
    operation is a computation over the session record that produces the
    list of callback invocations it performed and either returns or
    terminates the process with an exit code. *)

From Stdlib Require Import String ZArith List Lia Bool.
From Stdlib Require Import Strings.Byte.
Import ListNotations.
Local Open Scope Z_scope.

(** ** C integer arithmetic used by session.c *)

Module CInt.

(** Conversion of an [int] to [uint16_t]: the low sixteen bits are kept. *)
Definition to_uint16 (z : Z) : Z := Z.land z 0xFFFF.

Definition is_uint16 (z : Z) : Prop := 0 <= z < 65536.

(** [int] is 32 bits wide; [uint16_t] operands are promoted to it. *)
Definition is_int (z : Z) : Prop := - 2 ^ 31 <= z < 2 ^ 31.

(** [size_t] arithmetic wraps around (LP64: 64 bits). *)
Definition SIZE_BITS : Z := 64.
Definition size_sub (a b : Z) : Z := (a - b) mod 2 ^ SIZE_BITS.

(** [a % b] of C truncates towards zero. *)
Definition c_rem (a b : Z) : Z := Z.rem a b.

End CInt.

Import CInt.

(** ** The byte buffer (buffer.h) *)

Module Buffer.

(** Modelled from the spec: buffer.c is not among the sources.  The spec
    asks of the queue only: append bytes, peek up to N unconsumed bytes
    without removing them, remove a prefix of N bytes, report the
    remaining byte count, clear when empty.  A buffer is represented by
    the sequence of its unconsumed bytes. *)
Definition buffer_t : Type := list byte.

(** Modelled from the spec: [buffer_create] of buffer.c; both queues are
    initialised empty. *)
Definition buffer_create : buffer_t := [].

(** Modelled from the spec: [buffer_add_bytes] of buffer.c; bytes are
    appended at the tail. *)
Definition buffer_add_bytes (b : buffer_t) (data : list byte) : buffer_t :=
  b ++ data.

(** Modelled from the spec: [buffer_get_remaining_bytes] of buffer.c; the
    remaining byte count. *)
Definition buffer_get_remaining_bytes (b : buffer_t) : Z :=
  Z.of_nat (length b).

(** Modelled from the spec: [buffer_read_remaining_bytes] of buffer.c; up to
    [max_bytes] unconsumed bytes from the head, removed only when [consume]
    is set.  Returns the bytes read and the buffer afterwards. *)
Definition buffer_read_remaining_bytes
           (b : buffer_t) (max_bytes : Z) (consume : bool)
  : list byte * buffer_t :=
  let data := firstn (Z.to_nat max_bytes) b in
  (data, if consume then skipn (Z.to_nat max_bytes) b else b).

(** Modelled from the spec: [buffer_consume] of buffer.c; removes a prefix
    of [count] bytes. *)
Definition buffer_consume (b : buffer_t) (count : Z) : buffer_t :=
  skipn (Z.to_nat count) b.

(** Modelled from the spec: [buffer_clear] of buffer.c. *)
Definition buffer_clear (b : buffer_t) : buffer_t := [].

End Buffer.

Import Buffer.

(** ** Packets (packet.h) *)

(** Modelled from the spec: packet.h is not among the sources.  The tagged
    union [packet_t] with the fields session.c reads: the packet type selects
    the body, [Syn{seq, name}], [Msg{seq, ack, data}] or [Fin{}]; the length
    of the data of a MSG is the length of the list.  A packet whose type is
    none of SYN, MSG, FIN keeps its type value. *)
Inductive packet_body : Type :=
| PACKET_TYPE_SYN (seq : Z) (options : Z) (name : option string)
| PACKET_TYPE_MSG (seq : Z) (ack : Z) (data : list byte)
| PACKET_TYPE_FIN
| PACKET_TYPE_unknown (packet_type : Z).

(** Modelled from the spec: every packet carries the session id. *)
Record packet_t : Type := mk_packet {
  session_id : Z;
  body : packet_body
}.

(** Modelled from the spec: [packet_create_syn] of packet.c builds the
    logical packet [Syn{session_id, seq, name}], without a name. *)
Definition packet_create_syn (sid seq options : Z) : packet_t :=
  mk_packet sid (PACKET_TYPE_SYN seq options None).

(** Modelled from the spec: [packet_syn_set_name] of packet.c sets the
    optional name of a SYN. *)
Definition packet_syn_set_name (p : packet_t) (nm : string) : packet_t :=
  match body p with
  | PACKET_TYPE_SYN seq options _ =>
      mk_packet (session_id p) (PACKET_TYPE_SYN seq options (Some nm))
  | _ => p
  end.

(** Modelled from the spec: [packet_create_msg] of packet.c builds the
    logical packet [Msg{session_id, seq, ack, data}]. *)
Definition packet_create_msg (sid seq ack : Z) (data : list byte) : packet_t :=
  mk_packet sid (PACKET_TYPE_MSG seq ack data).

(** Modelled from the spec: [packet_create_fin] of packet.c builds the
    logical packet [Fin{session_id}]. *)
Definition packet_create_fin (sid : Z) : packet_t :=
  mk_packet sid PACKET_TYPE_FIN.

Definition is_fin (p : packet_t) : bool :=
  match body p with
  | PACKET_TYPE_FIN => true
  | _ => false
  end.

(** ** Sessions (session.h) *)

(** Modelled from the spec: session.h is not among the sources.  The states
    are those session.c switches on; [SESSION_STATE_invalid] stands for a
    value of the state field outside the enumeration, which the [default:]
    branches handle. *)
Inductive session_state_t : Type :=
| SESSION_STATE_NEW
| SESSION_STATE_ESTABLISHED
| SESSION_STATE_invalid (v : Z).

(** Modelled from the spec: the fields of [session_t] that session.c uses;
    id and sequence numbers are 16-bit, the two data fields are buffers.
    The callbacks and their parameter are represented by the events
    below. *)
Record session_t : Type := mk_session {
  id : Z;
  my_seq : Z;
  their_seq : Z;
  state : session_state_t;
  is_closed : bool;
  max_packet_size : Z;
  name : option string;
  incoming_data : buffer_t;
  outgoing_data : buffer_t
}.

Definition set_my_seq (v : Z) (s : session_t) : session_t :=
  mk_session (id s) v (their_seq s) (state s) (is_closed s)
             (max_packet_size s) (name s) (incoming_data s) (outgoing_data s).

Definition set_their_seq (v : Z) (s : session_t) : session_t :=
  mk_session (id s) (my_seq s) v (state s) (is_closed s)
             (max_packet_size s) (name s) (incoming_data s) (outgoing_data s).

Definition set_state (v : session_state_t) (s : session_t) : session_t :=
  mk_session (id s) (my_seq s) (their_seq s) v (is_closed s)
             (max_packet_size s) (name s) (incoming_data s) (outgoing_data s).

Definition set_is_closed (v : bool) (s : session_t) : session_t :=
  mk_session (id s) (my_seq s) (their_seq s) (state s) v
             (max_packet_size s) (name s) (incoming_data s) (outgoing_data s).

Definition set_name (v : option string) (s : session_t) : session_t :=
  mk_session (id s) (my_seq s) (their_seq s) (state s) (is_closed s)
             (max_packet_size s) v (incoming_data s) (outgoing_data s).

Definition set_incoming_data (v : buffer_t) (s : session_t) : session_t :=
  mk_session (id s) (my_seq s) (their_seq s) (state s) (is_closed s)
             (max_packet_size s) (name s) v (outgoing_data s).

Definition set_outgoing_data (v : buffer_t) (s : session_t) : session_t :=
  mk_session (id s) (my_seq s) (their_seq s) (state s) (is_closed s)
             (max_packet_size s) (name s) (incoming_data s) v.

(** The sequence numbers and the id are [uint16_t] fields. *)
Definition wf_session (s : session_t) : Prop :=
  is_uint16 (id s) /\ is_uint16 (my_seq s) /\ is_uint16 (their_seq s).

(** ** Effects: callbacks and process exit *)

(** One invocation of a callback of the session.  The outgoing callback
    receives the serialisation of a packet; the packet itself is recorded. *)
Inductive event : Type :=
| outgoing_data_callback (sid : Z) (packet : packet_t)
| incoming_data_callback (sid : Z) (data : list byte).

Inductive res (A : Type) : Type :=
| Ret (a : A)
| Exit (code : Z).
Arguments Ret {A} a.
Arguments Exit {A} code.

Record outcome (A : Type) : Type := mk_outcome {
  result : res A;
  final : session_t;
  trace : list event
}.
Arguments mk_outcome {A} _ _ _.
Arguments result {A} _.
Arguments final {A} _.
Arguments trace {A} _.

Definition M (A : Type) : Type := session_t -> outcome A.

Definition ret {A : Type} (a : A) : M A :=
  fun s => mk_outcome (Ret a) s [].

Definition bind {A B : Type} (m : M A) (k : A -> M B) : M B :=
  fun s =>
    match m s with
    | mk_outcome (Ret a) s1 t1 =>
        match k a s1 with
        | mk_outcome r s2 t2 => mk_outcome r s2 (t1 ++ t2)
        end
    | mk_outcome (Exit code) s1 t1 => mk_outcome (Exit code) s1 t1
    end.

Definition get : M session_t := fun s => mk_outcome (Ret s) s [].

Definition modify (f : session_t -> session_t) : M unit :=
  fun s => mk_outcome (Ret tt) (f s) [].

Definition exit {A : Type} (code : Z) : M A :=
  fun s => mk_outcome (Exit code) s [].

Definition call (e : event) : M unit :=
  fun s => mk_outcome (Ret tt) s [e].

Declare Scope session_scope.
Delimit Scope session_scope with session.
Notation "x <- m ;; k" := (bind m (fun x => k))
  (at level 61, m at next level, right associativity) : session_scope.
Notation "m ;; k" := (bind m (fun _ => k))
  (at level 61, right associativity) : session_scope.
Local Open Scope session_scope.

(** ** The operations of session.c *)

Section Session.

(** The framing overhead of a MSG packet, [packet_get_msg_size()] of
    packet.c, which is not among the sources: a parameter. *)
Variable packet_get_msg_size : Z.

(** [session_send_packet]: the packet is serialised and handed to the
    outgoing callback together with the id of the session. *)
Definition session_send_packet (packet : packet_t) : M unit :=
  s <- get ;;
  call (outgoing_data_callback (id s) packet).

(** The largest payload of one MSG:
    [session->max_packet_size - packet_get_msg_size()], in [size_t]. *)
Definition max_packet_payload (s : session_t) : Z :=
  size_sub (max_packet_size s) packet_get_msg_size.

Definition do_send_stuff : M unit :=
  s <- get ;;
  match state s with
  | SESSION_STATE_NEW =>
      let packet := packet_create_syn (id s) (my_seq s) 0 in
      let packet :=
        match name s with
        | Some nm => packet_syn_set_name packet nm
        | None => packet
        end in
      session_send_packet packet
  | SESSION_STATE_ESTABLISHED =>
      let '(data, buf) :=
        buffer_read_remaining_bytes
          (outgoing_data s) (max_packet_payload s) false in
      modify (set_outgoing_data buf) ;;
      session_send_packet
        (packet_create_msg (id s) (my_seq s) (their_seq s) data)
  | SESSION_STATE_invalid _ => exit 1
  end.

Definition session_send (data : list byte) : M unit :=
  modify (fun s =>
    set_outgoing_data (buffer_add_bytes (outgoing_data s) data) s) ;;
  do_send_stuff.

(** [rand_id] and [rand_seq] are the results of the two calls to
    [rand()].  The [name] field is not assigned by [session_create]; the
    allocation is taken to be zeroed, so that the name is absent. *)
Definition session_create (rand_id rand_seq : Z) (max_size : Z)
  : session_t :=
  {| id := c_rem rand_id 0xFFFF;
     my_seq := c_rem rand_seq 0xFFFF;
     state := SESSION_STATE_NEW;
     their_seq := 0;
     is_closed := false;
     max_packet_size := max_size;
     name := None;
     incoming_data := buffer_create;
     outgoing_data := buffer_create |}.

Definition session_set_name (nm : string) : M unit :=
  modify (set_name (Some nm)).

Definition send_final_fin : M unit :=
  s <- get ;;
  session_send_packet (packet_create_fin (id s)).

Definition session_close : M unit :=
  modify (set_is_closed true) ;;
  s <- get ;;
  if (buffer_get_remaining_bytes (incoming_data s) =? 0)
     && (buffer_get_remaining_bytes (outgoing_data s) =? 0)
  then send_final_fin ;; exit 0
  else ret tt.

Definition clean_up_buffers : M unit :=
  s <- get ;;
  (if buffer_get_remaining_bytes (outgoing_data s) =? 0
   then modify (set_outgoing_data (buffer_clear (outgoing_data s)))
   else ret tt) ;;
  s <- get ;;
  (if buffer_get_remaining_bytes (incoming_data s) =? 0
   then modify (set_incoming_data (buffer_clear (incoming_data s)))
   else ret tt).

(** [uint16_t bytes_acked = packet->body.msg.ack - session->my_seq]: the
    operands are promoted to [int], subtracted, and the difference is
    converted to [uint16_t]. *)
Definition bytes_acked_of (ack my_seq : Z) : Z := to_uint16 (ack - my_seq).

(** The MSG branch of [session_recv] in state ESTABLISHED; the value
    returned is [new_bytes_acked]. *)
Definition recv_msg (seq ack : Z) (data : list byte) : M bool :=
  s <- get ;;
  if seq =? their_seq s then
    let bytes_acked := bytes_acked_of ack (my_seq s) in
    if bytes_acked <=? buffer_get_remaining_bytes (outgoing_data s) then
      let data_length := Z.of_nat (length data) in
      modify (set_their_seq (Z.land (their_seq s + data_length) 0xFFFF)) ;;
      modify (fun s =>
        set_outgoing_data (buffer_consume (outgoing_data s) bytes_acked) s) ;;
      new_bytes_acked <-
        (if negb (bytes_acked =? 0) then
           modify (fun s =>
             set_my_seq (Z.land (my_seq s + bytes_acked) 0xFFFF) s) ;;
           ret true
         else ret false) ;;
      (if 0 <? data_length
       then call (incoming_data_callback (id s) data)
       else ret tt) ;;
      ret new_bytes_acked
    else ret false
  else ret false.

(** [packet] is [None] when the incoming bytes could not be parsed (the
    null pointer). *)
Definition session_recv (packet : option packet_t) : M unit :=
  match packet with
  | Some p =>
      s <- get ;;
      new_bytes_acked <-
        (if negb (session_id p =? id s) then ret false
         else
           match state s with
           | SESSION_STATE_NEW =>
               match body p with
               | PACKET_TYPE_SYN seq _ _ =>
                   modify (set_their_seq seq) ;;
                   modify (set_state SESSION_STATE_ESTABLISHED) ;;
                   ret false
               | PACKET_TYPE_MSG _ _ _ => ret false
               | PACKET_TYPE_FIN => exit 0
               | PACKET_TYPE_unknown _ => exit 1
               end
           | SESSION_STATE_ESTABLISHED =>
               match body p with
               | PACKET_TYPE_SYN _ _ _ => ret false
               | PACKET_TYPE_MSG seq ack data => recv_msg seq ack data
               | PACKET_TYPE_FIN => exit 0
               | PACKET_TYPE_unknown _ => send_final_fin ;; exit 0
               end
           | SESSION_STATE_invalid _ => send_final_fin ;; exit 0
           end) ;;
      s <- get ;;
      if (0 <? buffer_get_remaining_bytes (outgoing_data s))
         && new_bytes_acked
      then do_send_stuff
      else ret tt
  | None => exit 1
  end.

Definition session_do_actions : M unit :=
  clean_up_buffers ;;
  do_send_stuff ;;
  s <- get ;;
  if is_closed s
     && (buffer_get_remaining_bytes (incoming_data s) =? 0)
     && (buffer_get_remaining_bytes (outgoing_data s) =? 0)
  then send_final_fin ;; exit 0
  else ret tt.

(** *** Executions: the public operations applied in sequence *)

Inductive op : Type :=
| op_send (data : list byte)
| op_recv (packet : option packet_t)
| op_do_actions
| op_close
| op_set_name (nm : string).

Definition run_op (o : op) : M unit :=
  match o with
  | op_send data => session_send data
  | op_recv packet => session_recv packet
  | op_do_actions => session_do_actions
  | op_close => session_close
  | op_set_name nm => session_set_name nm
  end.

(** The operations are applied until one of them exits. *)
Fixpoint run_ops (os : list op) : M unit :=
  match os with
  | [] => ret tt
  | o :: os' => run_op o ;; run_ops os'
  end.

Definition fin_sent (out : list event) : bool :=
  existsb (fun e =>
    match e with
    | outgoing_data_callback _ p => is_fin p
    | incoming_data_callback _ _ => false
    end) out.

Definition delivered (out : list event) : list (list byte) :=
  flat_map (fun e =>
    match e with
    | incoming_data_callback _ data => [data]
    | outgoing_data_callback _ _ => []
    end) out.

Definition queues_empty (s : session_t) : Prop :=
  incoming_data s = [] /\ outgoing_data s = [].

End Session.

(** ** Properties of computations and executions *)

(** [preserves P m]: the computation [m] leaves a session that satisfies
    [P] in a state that satisfies [P], whether it returns or exits. *)
Definition preserves {A : Type} (P : session_t -> Prop) (m : M A) : Prop :=
  forall s : session_t, P s -> P (final (m s)).

(** The circumstances under which one operation sends a FIN. *)
Definition fin_circumstances (o : op) (r : outcome unit) : Prop :=
  ((o = op_close \/ o = op_do_actions) /\
   is_closed (final r) = true /\ queues_empty (final r))
  \/
  (exists p,
      o = op_recv (Some p) /\ session_id p = id (final r) /\
      ((exists v, state (final r) = SESSION_STATE_invalid v) \/
       (state (final r) = SESSION_STATE_ESTABLISHED /\
        exists t, body p = PACKET_TYPE_unknown t))).

(** The 16-bit fields of an incoming packet are in range. *)
Definition wf_packet (p : packet_t) : Prop :=
  is_uint16 (session_id p) /\
  match body p with
  | PACKET_TYPE_SYN seq _ _ => is_uint16 seq
  | PACKET_TYPE_MSG seq ack _ => is_uint16 seq /\ is_uint16 ack
  | PACKET_TYPE_FIN => True
  | PACKET_TYPE_unknown _ => True
  end.

Definition wf_op (o : op) : Prop :=
  match o with
  | op_recv (Some p) => wf_packet p
  | _ => True
  end.

(** The teardown condition as the specification words it: a final FIN is
    sent only when both queues are empty and either the owner requested
    close or the peer signalled FIN. *)
Definition teardown_claim (msz : Z) (os : list op) (s : session_t) : Prop :=
  let r := run_ops msz os s in
  fin_sent (trace r) = true ->
  queues_empty (final r) /\
  (is_closed (final r) = true \/
   exists p, In (op_recv (Some p)) os /\ is_fin p = true).

(** ** Observations on traces and executions *)

(** The packets handed to the outgoing callback, in order. *)
Definition sent (out : list event) : list packet_t :=
  flat_map (fun e =>
    match e with
    | outgoing_data_callback _ p => [p]
    | incoming_data_callback _ _ => []
    end) out.

Definition is_msg (p : packet_t) : bool :=
  match body p with
  | PACKET_TYPE_MSG _ _ _ => true
  | _ => false
  end.

(** The callback invocation [e] names the session [sid], and so does the
    packet it carries. *)
Definition event_of (sid : Z) (e : event) : Prop :=
  match e with
  | outgoing_data_callback i p => i = sid /\ session_id p = sid
  | incoming_data_callback i _ => i = sid
  end.

(** The bytes the owner queues in the course of the operations [os]. *)
Fixpoint queued (os : list op) : list byte :=
  match os with
  | [] => []
  | op_send data :: os' => data ++ queued os'
  | _ :: os' => queued os'
  end.

(** The test of [session_do_actions] for the final FIN. *)
Definition teardown_due (s : session_t) : bool :=
  is_closed s
  && (buffer_get_remaining_bytes (incoming_data s) =? 0)
  && (buffer_get_remaining_bytes (outgoing_data s) =? 0).

(** ** Sample sessions and executions *)

Definition foreign_id_session : session_t :=
  {| id := 7; my_seq := 10; their_seq := 20;
     state := SESSION_STATE_invalid 9; is_closed := false;
     max_packet_size := 20; name := None;
     incoming_data := []; outgoing_data := [x41; x42] |}.

Definition established_session (seq : Z) (out : buffer_t) : session_t :=
  {| id := 7; my_seq := seq; their_seq := 100;
     state := SESSION_STATE_ESTABLISHED; is_closed := false;
     max_packet_size := 11; name := None;
     incoming_data := []; outgoing_data := out |}.

(** The session of the scenario of the specification: a payload of four
    bytes per MSG (a packet size of 11 with an overhead of 7) and ten bytes
    queued before the peer's SYN has arrived. *)
Definition scenario_new_session : session_t :=
  {| id := 7; my_seq := 0xFFFE; their_seq := 0;
     state := SESSION_STATE_NEW; is_closed := false;
     max_packet_size := 11; name := Some "dnscat2"%string;
     incoming_data := [];
     outgoing_data := [x41; x42; x43; x44; x45; x46; x47; x48; x49; x4a] |}.

Definition scenario_syn : packet_t :=
  mk_packet 7 (PACKET_TYPE_SYN 100 0 None).

(** Sessions at the wraparound of my_seq, with three and with five bytes
    queued, and packets that acknowledge up to 0x0002 and up to 0xFFFE (nothing new). *)
Definition bad_ack_session : session_t :=
  established_session 0xFFFE [x41; x42; x43].

Definition wraparound_session : session_t :=
  established_session 0xFFFE [x41; x42; x43; x44; x45].

Definition ack_to_0002 : packet_t :=
  mk_packet 7 (PACKET_TYPE_MSG 100 2 [x61]).

Definition retransmission_ack : packet_t :=
  mk_packet 7 (PACKET_TYPE_MSG 100 0xFFFE []).

(** A byte is queued, the peer's SYN arrives, then a packet of unknown
    type. *)
Definition fin_while_queued_ops : list op :=
  [op_send [x41];
   op_recv (Some (mk_packet 1 (PACKET_TYPE_SYN 100 0 None)));
   op_recv (Some (mk_packet 1 (PACKET_TYPE_unknown 0xFF)))].

(** * Properties *)

(** ** Integer conversions *)

Module CIntFacts.

Lemma to_uint16_mod (z : Z) : to_uint16 z = z mod 65536.
Proof.
  unfold to_uint16.
  change 0xFFFF with (Z.ones 16).
  rewrite Z.land_ones by lia.
  reflexivity.
Qed.

Lemma to_uint16_range (z : Z) : is_uint16 (to_uint16 z).
Proof.
  rewrite to_uint16_mod. unfold is_uint16.
  apply Z.mod_pos_bound. lia.
Qed.

Lemma to_uint16_id (z : Z) : is_uint16 z -> to_uint16 z = z.
Proof.
  intros H. rewrite to_uint16_mod. apply Z.mod_small. exact H.
Qed.

(** The difference of two promoted [uint16_t] values never overflows. *)
Lemma uint16_sub_is_int (a b : Z) :
  is_uint16 a -> is_uint16 b -> is_int (a - b).
Proof. unfold is_uint16, is_int. lia. Qed.

End CIntFacts.

Import CIntFacts.

(** ** The buffer *)

Module BufferFacts.

Lemma remaining_nonneg (b : buffer_t) : 0 <= buffer_get_remaining_bytes b.
Proof. unfold buffer_get_remaining_bytes. lia. Qed.

Lemma remaining_zero (b : buffer_t) :
  buffer_get_remaining_bytes b = 0 <-> b = [].
Proof.
  unfold buffer_get_remaining_bytes. destruct b as [|x b]; simpl.
  - split; reflexivity.
  - split; [lia | discriminate].
Qed.

Lemma remaining_consume (b : buffer_t) (n : Z) :
  0 <= n <= buffer_get_remaining_bytes b ->
  buffer_get_remaining_bytes (buffer_consume b n)
  = buffer_get_remaining_bytes b - n.
Proof.
  unfold buffer_get_remaining_bytes, buffer_consume. intros H.
  rewrite length_skipn. lia.
Qed.

Lemma consume_zero (b : buffer_t) : buffer_consume b 0 = b.
Proof. reflexivity. Qed.

(** Peeking more than is there yields everything there is. *)
Lemma peek_min (b : buffer_t) (n : Z) :
  firstn (Z.to_nat n) b
  = firstn (Z.to_nat (Z.min n (buffer_get_remaining_bytes b))) b.
Proof.
  unfold buffer_get_remaining_bytes.
  destruct (Z.le_ge_cases n (Z.of_nat (length b))) as [Hle | Hge].
  - rewrite Z.min_l by exact Hle. reflexivity.
  - rewrite Z.min_r by lia. rewrite Nat2Z.id.
    rewrite firstn_all. apply firstn_all2. lia.
Qed.

End BufferFacts.

Import BufferFacts.

(** ** Receiving a packet *)

(** Unfolds the operations down to the session record. *)
Ltac run_session :=
  unfold session_recv, recv_msg, session_do_actions, session_close,
    session_send, session_set_name, clean_up_buffers, do_send_stuff,
    send_final_fin, session_send_packet, bind, get, modify, exit, call, ret;
  cbn [result final trace app
       id my_seq their_seq state is_closed max_packet_size name
       incoming_data outgoing_data session_id body
       set_my_seq set_their_seq set_state set_is_closed set_name
       set_incoming_data set_outgoing_data].

Lemma land_FFFF_mod (z : Z) : Z.land z 0xFFFF = z mod 65536.
Proof. exact (to_uint16_mod z). Qed.

Lemma bytes_acked_of_mod (ack seq : Z) :
  bytes_acked_of ack seq = (ack - seq) mod 65536.
Proof. unfold bytes_acked_of. apply to_uint16_mod. Qed.

(** What an accepted MSG does to the session, and which callbacks run. *)
Lemma session_recv_msg_accepted
      (msz : Z) (s : session_t) (p : packet_t) (ack : Z) (data : list byte) :
  state s = SESSION_STATE_ESTABLISHED ->
  session_id p = id s ->
  body p = PACKET_TYPE_MSG (their_seq s) ack data ->
  bytes_acked_of ack (my_seq s)
  <= buffer_get_remaining_bytes (outgoing_data s) ->
  let n := bytes_acked_of ack (my_seq s) in
  let s' :=
    {| id := id s;
       my_seq := if n =? 0 then my_seq s else (my_seq s + n) mod 65536;
       their_seq := (their_seq s + Z.of_nat (length data)) mod 65536;
       state := SESSION_STATE_ESTABLISHED;
       is_closed := is_closed s;
       max_packet_size := max_packet_size s;
       name := name s;
       incoming_data := incoming_data s;
       outgoing_data := buffer_consume (outgoing_data s) n |} in
  session_recv msz (Some p) s
  = mk_outcome (Ret tt) s'
      ((if 0 <? Z.of_nat (length data)
        then [incoming_data_callback (id s) data] else [])
       ++
       (if (0 <? buffer_get_remaining_bytes (outgoing_data s'))
           && negb (n =? 0)
        then [outgoing_data_callback (id s)
                (packet_create_msg (id s) (my_seq s') (their_seq s')
                   (firstn (Z.to_nat (max_packet_payload msz s'))
                      (outgoing_data s')))]
        else [])).
Proof.
  intros Hst Hid Hbody Hle n s'. subst s' n.
  destruct s as [i ms ts st cl mx nm inc out]. destruct p as [sid b].
  cbn [id my_seq their_seq state is_closed max_packet_size name
       incoming_data outgoing_data session_id body] in *.
  subst st sid b.
  apply Z.leb_le in Hle.
  destruct (bytes_acked_of ack ms =? 0) eqn:Hz;
    destruct (0 <? Z.of_nat (length data)) eqn:Hd;
    destruct (0 <? buffer_get_remaining_bytes
                     (buffer_consume out (bytes_acked_of ack ms))) eqn:Hq;
    repeat (run_session;
            rewrite ?Z.eqb_refl, ?Hle, ?Hz, ?Hd, ?Hq, ?land_FFFF_mod;
            cbn [negb andb buffer_read_remaining_bytes]);
    reflexivity.
Qed.

(** Rewrites with the tests that are known and evaluates the operation. *)
Ltac run_with tests :=
  repeat (run_session;
          rewrite ?Z.eqb_refl, ?land_FFFF_mod, ?andb_false_r, ?tests;
          cbn [negb andb buffer_read_remaining_bytes]).

Lemma session_recv_other_id (msz : Z) (s : session_t) (p : packet_t) :
  session_id p <> id s ->
  session_recv msz (Some p) s = mk_outcome (Ret tt) s [].
Proof.
  intros Hne. apply Z.eqb_neq in Hne.
  run_with Hne. reflexivity.
Qed.

(** C7: a packet whose session id differs from the id of the session is
    dropped, whatever the state of the session and the type of the packet:
    the session record is the same afterwards (state, sequence numbers, both
    queues, closing flag), no callback is invoked, and the call returns. *)
Theorem session_recv_id_mismatch
        (msz : Z) (s : session_t) (p : packet_t) :
  session_id p <> id s ->
  session_recv msz (Some p) s = mk_outcome (Ret tt) s [].
Proof. apply session_recv_other_id. Qed.

Lemma session_recv_id_mismatch_witness :
  session_recv 7 (Some (mk_packet 8 PACKET_TYPE_FIN))
               foreign_id_session
  = mk_outcome (Ret tt) foreign_id_session [].
Proof.
  apply (session_recv_id_mismatch 7 foreign_id_session
           (mk_packet 8 PACKET_TYPE_FIN)).
  simpl. lia.
Defined.

(** C2: in state ESTABLISHED, a MSG with the id of the session and the
    expected sequence number whose acknowledgement claims more bytes than the
    outgoing queue holds changes nothing: the session record is the same
    afterwards (outgoing queue, my_seq and their_seq included), the receive
    callback gets no bytes, and no packet is sent. *)
Theorem session_recv_bad_ack
        (msz : Z) (s : session_t) (p : packet_t) (ack : Z) (data : list byte) :
  state s = SESSION_STATE_ESTABLISHED ->
  session_id p = id s ->
  body p = PACKET_TYPE_MSG (their_seq s) ack data ->
  (ack - my_seq s) mod 65536
  > buffer_get_remaining_bytes (outgoing_data s) ->
  let o := session_recv msz (Some p) s in
  o = mk_outcome (Ret tt) s [] /\
  outgoing_data (final o) = outgoing_data s /\
  my_seq (final o) = my_seq s /\
  their_seq (final o) = their_seq s /\
  delivered (trace o) = [].
Proof.
  intros Hst Hid Hbody Hgt o.
  assert (Ho : o = mk_outcome (Ret tt) s []).
  { subst o. rewrite <- bytes_acked_of_mod in Hgt.
    destruct s as [i ms ts st cl mx nm inc out]. destruct p as [sid b].
    cbn [id my_seq their_seq state outgoing_data session_id body] in *.
    subst st sid b.
    assert (Hle : (bytes_acked_of ack ms
                   <=? buffer_get_remaining_bytes out) = false)
      by (apply Z.leb_gt; lia).
    run_with Hle. reflexivity. }
  rewrite Ho. repeat split; reflexivity.
Qed.

Lemma session_recv_bad_ack_witness :
  session_recv 7 (Some ack_to_0002) bad_ack_session
  = mk_outcome (Ret tt) bad_ack_session [] /\
  outgoing_data (final (session_recv 7 (Some ack_to_0002) bad_ack_session))
  = [x41; x42; x43] /\
  my_seq (final (session_recv 7 (Some ack_to_0002) bad_ack_session))
  = 0xFFFE /\
  their_seq (final (session_recv 7 (Some ack_to_0002) bad_ack_session))
  = 100 /\
  delivered (trace (session_recv 7 (Some ack_to_0002) bad_ack_session))
  = [].
Proof.
  apply (session_recv_bad_ack 7 bad_ack_session ack_to_0002 2 [x61]).
  - reflexivity.
  - reflexivity.
  - reflexivity.
  - vm_compute. reflexivity.
Defined.

(** C1: in state ESTABLISHED, a MSG with the id of the session, the expected
    sequence number and an acknowledgement of
    [n = (ack - my_seq) mod 65536] bytes, with [n] at most the number of
    bytes queued, removes exactly the first [n] bytes of the outgoing queue,
    advances my_seq by [n] modulo 65536 and advances their_seq by the length
    of the data modulo 65536. *)
Theorem session_recv_ack_applied
        (msz : Z) (s : session_t) (p : packet_t) (ack : Z) (data : list byte) :
  wf_session s ->
  state s = SESSION_STATE_ESTABLISHED ->
  session_id p = id s ->
  body p = PACKET_TYPE_MSG (their_seq s) ack data ->
  0 <= (ack - my_seq s) mod 65536
    <= buffer_get_remaining_bytes (outgoing_data s) ->
  let n := (ack - my_seq s) mod 65536 in
  let o := session_recv msz (Some p) s in
  result o = Ret tt /\
  outgoing_data (final o) = skipn (Z.to_nat n) (outgoing_data s) /\
  firstn (Z.to_nat n) (outgoing_data s) ++ outgoing_data (final o)
  = outgoing_data s /\
  buffer_get_remaining_bytes (outgoing_data (final o))
  = buffer_get_remaining_bytes (outgoing_data s) - n /\
  my_seq (final o) = (my_seq s + n) mod 65536 /\
  their_seq (final o) = (their_seq s + Z.of_nat (length data)) mod 65536.
Proof.
  intros (_ & Hms & _) Hst Hid Hbody Hn n o.
  assert (Hle : bytes_acked_of ack (my_seq s)
                <= buffer_get_remaining_bytes (outgoing_data s))
    by (rewrite bytes_acked_of_mod; lia).
  subst o.
  rewrite (session_recv_msg_accepted msz s p ack data Hst Hid Hbody Hle).
  rewrite bytes_acked_of_mod. fold n.
  cbn [result final my_seq their_seq outgoing_data].
  split; [reflexivity|].
  split; [reflexivity|].
  split; [apply firstn_skipn|].
  split; [apply remaining_consume; exact Hn|].
  split; [|reflexivity].
  destruct (Z.eqb_spec n 0) as [Hz|_]; [|reflexivity].
  rewrite Hz, Z.add_0_r. symmetry. apply Z.mod_small. exact Hms.
Qed.

Lemma session_recv_ack_applied_witness :
  result (session_recv 7 (Some ack_to_0002) wraparound_session) = Ret tt /\
  outgoing_data (final (session_recv 7 (Some ack_to_0002)
                          wraparound_session)) = [x45] /\
  [x41; x42; x43; x44]
    ++ outgoing_data (final (session_recv 7 (Some ack_to_0002)
                               wraparound_session))
  = [x41; x42; x43; x44; x45] /\
  buffer_get_remaining_bytes
    (outgoing_data (final (session_recv 7 (Some ack_to_0002)
                             wraparound_session))) = 5 - 4 /\
  my_seq (final (session_recv 7 (Some ack_to_0002) wraparound_session))
  = 2 /\
  their_seq (final (session_recv 7 (Some ack_to_0002) wraparound_session))
  = 101.
Proof.
  apply (session_recv_ack_applied 7 wraparound_session ack_to_0002
           2 [x61]).
  - unfold wf_session, is_uint16. simpl. lia.
  - reflexivity.
  - reflexivity.
  - reflexivity.
  - vm_compute. split; discriminate.
Defined.

(** C3: the number of acknowledged bytes that [session_recv] computes is
    [(ack - my_seq) mod 65536], a 16-bit value, for every acknowledgement
    and every my_seq; across the wraparound, my_seq = 0xFFFE and
    ack = 0x0002 give 4 acknowledged bytes, and [session_recv] then takes
    four bytes off the queue and moves my_seq to 0x0002. *)
Theorem bytes_acked_wraparound (ack seq : Z) :
  bytes_acked_of ack seq = (ack - seq) mod 65536 /\
  is_uint16 (bytes_acked_of ack seq) /\
  bytes_acked_of 0x0002 0xFFFE = 4 /\
  final (session_recv 7 (Some (mk_packet 7 (PACKET_TYPE_MSG 100 0x0002 [])))
           (established_session 0xFFFE [x41; x42; x43; x44; x45]))
  = established_session 0x0002 [x45].
Proof.
  split; [apply bytes_acked_of_mod|].
  split; [apply to_uint16_range|].
  split; reflexivity.
Qed.

(** C10: in state ESTABLISHED, a MSG with the id of the session, the expected
    sequence number, an acknowledgement equal to my_seq and no data leaves
    the session record as it is and invokes neither callback; receiving it
    a second time changes nothing either. *)
Theorem session_recv_retransmission_ack
        (msz : Z) (s : session_t) (p : packet_t) :
  wf_session s ->
  state s = SESSION_STATE_ESTABLISHED ->
  session_id p = id s ->
  body p = PACKET_TYPE_MSG (their_seq s) (my_seq s) [] ->
  session_recv msz (Some p) s = mk_outcome (Ret tt) s [] /\
  run_ops msz [op_recv (Some p); op_recv (Some p)] s
  = mk_outcome (Ret tt) s [].
Proof.
  intros (_ & _ & Hts) Hst Hid Hbody.
  assert (Hn : bytes_acked_of (my_seq s) (my_seq s) = 0).
  { rewrite bytes_acked_of_mod, Z.sub_diag. reflexivity. }
  assert (Hle : bytes_acked_of (my_seq s) (my_seq s)
                <= buffer_get_remaining_bytes (outgoing_data s))
    by (rewrite Hn; apply remaining_nonneg).
  assert (Hone : session_recv msz (Some p) s = mk_outcome (Ret tt) s []).
  { rewrite (session_recv_msg_accepted msz s p (my_seq s) [] Hst Hid Hbody Hle).
    rewrite Hn. cbn [length Z.of_nat Z.ltb Z.compare Z.eqb negb andb app].
    rewrite andb_false_r, Z.add_0_r, consume_zero, <- Hst.
    rewrite (Z.mod_small _ _ Hts).
    destruct s; reflexivity. }
  split; [exact Hone|].
  cbn [run_ops run_op]. unfold bind at 1. rewrite Hone.
  cbn [result final trace]. unfold bind. rewrite Hone. reflexivity.
Qed.

Lemma session_recv_retransmission_ack_witness :
  session_recv 7 (Some retransmission_ack) bad_ack_session
  = mk_outcome (Ret tt) bad_ack_session [] /\
  run_ops 7 [op_recv (Some retransmission_ack);
             op_recv (Some retransmission_ack)] bad_ack_session
  = mk_outcome (Ret tt) bad_ack_session [].
Proof.
  apply (session_recv_retransmission_ack 7 bad_ack_session
           retransmission_ack).
  - unfold wf_session, is_uint16. simpl. lia.
  - reflexivity.
  - reflexivity.
  - reflexivity.
Defined.

(** ** The send path *)

(** C8: in state NEW the send path hands the send callback exactly one SYN
    with the id, my_seq and the name of the session (a SYN has no data
    field); in state ESTABLISHED it hands exactly one MSG with the id,
    my_seq, their_seq and the first [min (max_packet_payload, remaining)]
    bytes of the outgoing queue; the session, its outgoing queue included,
    is as before; with an empty queue the MSG carries no data. *)
Theorem do_send_stuff_packet (msz : Z) (s : session_t) :
  (state s = SESSION_STATE_NEW ->
   do_send_stuff msz s
   = mk_outcome (Ret tt) s
       [outgoing_data_callback (id s)
          (mk_packet (id s) (PACKET_TYPE_SYN (my_seq s) 0 (name s)))]) /\
  (state s = SESSION_STATE_ESTABLISHED ->
   do_send_stuff msz s
   = mk_outcome (Ret tt) s
       [outgoing_data_callback (id s)
          (mk_packet (id s)
             (PACKET_TYPE_MSG (my_seq s) (their_seq s)
                (firstn (Z.to_nat
                           (Z.min (max_packet_payload msz s)
                                  (buffer_get_remaining_bytes
                                     (outgoing_data s))))
                        (outgoing_data s))))]) /\
  (state s = SESSION_STATE_ESTABLISHED ->
   outgoing_data s = [] ->
   trace (do_send_stuff msz s)
   = [outgoing_data_callback (id s)
        (mk_packet (id s) (PACKET_TYPE_MSG (my_seq s) (their_seq s) []))]).
Proof.
  destruct s as [i ms ts st cl mx nm inc out].
  cbn [id my_seq their_seq state name outgoing_data].
  split; [|split].
  - intros ->. run_session. destruct nm; reflexivity.
  - intros ->. run_session. cbn [buffer_read_remaining_bytes]. run_session.
    rewrite <- peek_min. reflexivity.
  - intros -> ->. run_session. cbn [buffer_read_remaining_bytes]. run_session.
    rewrite firstn_nil. reflexivity.
Qed.

Lemma do_send_stuff_packet_witness :
  do_send_stuff 7 scenario_new_session
  = mk_outcome (Ret tt) scenario_new_session
      [outgoing_data_callback 7
         (mk_packet 7 (PACKET_TYPE_SYN 0xFFFE 0 (Some "dnscat2"%string)))] /\
  do_send_stuff 7
    (established_session 0xFFFE [x41; x42; x43; x44; x45; x46])
  = mk_outcome (Ret tt)
      (established_session 0xFFFE [x41; x42; x43; x44; x45; x46])
      [outgoing_data_callback 7
         (mk_packet 7 (PACKET_TYPE_MSG 0xFFFE 100 [x41; x42; x43; x44]))] /\
  trace (do_send_stuff 7 (established_session 0xFFFE []))
  = [outgoing_data_callback 7 (mk_packet 7 (PACKET_TYPE_MSG 0xFFFE 100 []))].
Proof.
  split; [|split].
  - apply (proj1 (do_send_stuff_packet 7 scenario_new_session)).
    reflexivity.
  - apply (proj1 (proj2 (do_send_stuff_packet 7
             (established_session 0xFFFE [x41; x42; x43; x44; x45; x46])))).
    reflexivity.
  - apply (proj2 (proj2 (do_send_stuff_packet 7
             (established_session 0xFFFE [])))); reflexivity.
Defined.

(** ** Invariants of executions *)

Section Preservation.

Context {A B : Type} (P : session_t -> Prop).

Lemma preserves_ret (a : A) : preserves P (ret a).
Proof. intros s Hs. exact Hs. Qed.

Lemma preserves_exit (code : Z) : preserves P (@exit A code).
Proof. intros s Hs. exact Hs. Qed.

Lemma preserves_get : preserves P get.
Proof. intros s Hs. exact Hs. Qed.

Lemma preserves_call (e : event) : preserves P (call e).
Proof. intros s Hs. exact Hs. Qed.

Lemma preserves_modify (f : session_t -> session_t) :
  (forall s, P s -> P (f s)) -> preserves P (modify f).
Proof. intros Hf s Hs. apply Hf. exact Hs. Qed.

Lemma preserves_bind (m : M A) (k : A -> M B) :
  preserves P m -> (forall a, preserves P (k a)) -> preserves P (bind m k).
Proof.
  intros Hm Hk s Hs. unfold bind.
  pose proof (Hm s Hs) as H1.
  destruct (m s) as [[a|code] s1 t1]; cbn [final] in *.
  - pose proof (Hk a s1 H1) as H2.
    destruct (k a s1) as [r s2 t2]. exact H2.
  - exact H1.
Qed.

End Preservation.

(** Walks through an operation, leaving the updates of the session. *)
Ltac preserve :=
  repeat match goal with
    | |- preserves _ (ret _) => apply preserves_ret
    | |- preserves _ (exit _) => apply preserves_exit
    | |- preserves _ get => apply preserves_get
    | |- preserves _ (call _) => apply preserves_call
    | |- preserves _ (bind _ _) => apply preserves_bind; [|intros ?]
    | |- preserves _ (modify _) =>
        apply preserves_modify; intros [? ? ? ? ? ? ? ? ?]
    | |- preserves _ (if ?c then _ else _) => destruct c
    | |- preserves _ (match ?x with _ => _ end) => destruct x
    end.

Lemma preserves_incoming_empty (msz : Z) (o : op) :
  preserves (fun s => incoming_data s = []) (run_op msz o).
Proof.
  destruct o as [data | packet | | | nm]; cbn [run_op];
    unfold session_send, session_recv, recv_msg, session_do_actions,
      session_close, session_set_name, clean_up_buffers, do_send_stuff,
      send_final_fin, session_send_packet;
    preserve; cbn; auto.
Qed.

Lemma run_op_incoming_empty (msz : Z) (o : op) (s : session_t) :
  incoming_data s = [] ->
  incoming_data (final (run_op msz o s)) = [].
Proof. apply preserves_incoming_empty. Qed.

Lemma run_ops_incoming_empty (msz : Z) (os : list op) :
  forall s : session_t,
    incoming_data s = [] ->
    incoming_data (final (run_ops msz os s)) = [].
Proof.
  induction os as [|o os IH]; intros s Hs.
  - exact Hs.
  - cbn [run_ops]. unfold bind.
    pose proof (run_op_incoming_empty msz o s Hs) as Ho.
    destruct (run_op msz o s) as [[[]|code] s1 t1]; cbn [final] in *.
    + pose proof (IH s1 Ho) as H2.
      destruct (run_ops msz os s1) as [r s2 t2]. exact H2.
    + exact Ho.
Qed.

(** C9: the incoming queue is empty when the session is created and after
    every sequence of public operations applied to it: no operation adds
    bytes to it (received data goes to the receive callback), so the test
    for an empty incoming queue made at teardown always succeeds. *)
Theorem incoming_queue_always_empty
        (msz rand_id rand_seq max_size : Z) (os : list op) :
  incoming_data (session_create rand_id rand_seq max_size) = [] /\
  incoming_data
    (final (run_ops msz os (session_create rand_id rand_seq max_size))) = [] /\
  buffer_get_remaining_bytes
    (incoming_data
       (final (run_ops msz os (session_create rand_id rand_seq max_size))))
  = 0.
Proof.
  assert (H : incoming_data
                (final (run_ops msz os
                          (session_create rand_id rand_seq max_size))) = []).
  { apply run_ops_incoming_empty. reflexivity. }
  split; [reflexivity|]. split; [exact H|].
  rewrite H. reflexivity.
Qed.

(** ** Establishment *)

(** Case analysis on every test an operation meets. *)
Ltac split_cases :=
  repeat (run_session; cbn [negb andb buffer_read_remaining_bytes];
          match goal with
          | |- context [if ?c then _ else _] =>
              match type of c with bool => destruct c eqn:? end
          end);
  run_session; cbn [negb andb buffer_read_remaining_bytes].

(** An operation leaves the state field alone, unless it is the reception
    of a SYN for this session in state NEW. *)
Lemma run_op_state (msz : Z) (o : op) (s : session_t) :
  state (final (run_op msz o s)) = state s \/
  (state s = SESSION_STATE_NEW /\
   exists p seq options nm,
     o = op_recv (Some p) /\ session_id p = id s /\
     body p = PACKET_TYPE_SYN seq options nm /\
     run_op msz o s
     = mk_outcome (Ret tt)
         (set_state SESSION_STATE_ESTABLISHED (set_their_seq seq s)) []).
Proof.
  destruct s as [i ms ts st cl mx nm inc out].
  destruct o as [data | [[sid b]|] | | | nm']; cbn [run_op];
    try (left; destruct st, nm; split_cases; reflexivity).
  destruct (Z.eqb_spec sid i) as [->|Hne].
  - destruct st, b, nm; try (left; split_cases; reflexivity).
    all: right; split; [reflexivity|].
    all: exists (mk_packet i (PACKET_TYPE_SYN seq options name0)),
                seq, options, name0.
    all: repeat split; run_with Z.eqb_refl; reflexivity.
  - left. rewrite session_recv_other_id by exact Hne. reflexivity.
Qed.

Lemma run_ops_established (msz : Z) (os : list op) :
  forall s : session_t,
    state s = SESSION_STATE_ESTABLISHED ->
    state (final (run_ops msz os s)) = SESSION_STATE_ESTABLISHED.
Proof.
  induction os as [|o os IH]; intros s Hs.
  - exact Hs.
  - cbn [run_ops]. unfold bind.
    assert (Ho : state (final (run_op msz o s)) = SESSION_STATE_ESTABLISHED).
    { destruct (run_op_state msz o s) as [Hsame | [Hnew _]]; congruence. }
    destruct (run_op msz o s) as [[[]|code] s1 t1]; cbn [final] in *.
    + specialize (IH s1 Ho).
      destruct (run_ops msz os s1) as [r s2 t2]. exact IH.
    + exact Ho.
Qed.

(** C6: a session in state NEW becomes ESTABLISHED only by receiving a SYN
    that carries its id; such a SYN does make the state ESTABLISHED, sets
    their_seq to the sequence number of the SYN and leaves every other
    field as it was; once ESTABLISHED the session stays so through every
    sequence of operations, so that the transition happens at most once; a
    MSG received in state NEW leaves the whole session record as it is,
    invokes no callback and returns normally. *)
Theorem new_to_established
        (msz : Z) (s : session_t) (o : op) (os : list op) :
  (state s = SESSION_STATE_NEW ->
   state (final (run_op msz o s)) = SESSION_STATE_ESTABLISHED ->
   exists p seq options nm,
     o = op_recv (Some p) /\ session_id p = id s /\
     body p = PACKET_TYPE_SYN seq options nm /\
     their_seq (final (run_op msz o s)) = seq) /\
  (forall p seq options nm,
     state s = SESSION_STATE_NEW ->
     session_id p = id s ->
     body p = PACKET_TYPE_SYN seq options nm ->
     session_recv msz (Some p) s
     = mk_outcome (Ret tt)
         {| id := id s;
            my_seq := my_seq s;
            their_seq := seq;
            state := SESSION_STATE_ESTABLISHED;
            is_closed := is_closed s;
            max_packet_size := max_packet_size s;
            name := name s;
            incoming_data := incoming_data s;
            outgoing_data := outgoing_data s |} [] /\
     state (final (session_recv msz (Some p) s))
     = SESSION_STATE_ESTABLISHED /\
     their_seq (final (session_recv msz (Some p) s)) = seq) /\
  (state s = SESSION_STATE_ESTABLISHED ->
   state (final (run_ops msz os s)) = SESSION_STATE_ESTABLISHED) /\
  (forall p seq ack data,
     state s = SESSION_STATE_NEW ->
     body p = PACKET_TYPE_MSG seq ack data ->
     session_recv msz (Some p) s = mk_outcome (Ret tt) s []).
Proof.
  split; [|split; [|split]].
  - intros Hnew Hest.
    destruct (run_op_state msz o s) as [Hsame | [_ Hsyn]]; [congruence|].
    destruct Hsyn as (p & seq & options & nm & Ho & Hid & Hbody & Hrun).
    exists p, seq, options, nm. rewrite Hrun. repeat split; assumption.
  - intros p seq options nm Hnew Hid Hbody.
    destruct s as [i ms ts st cl mx nm' inc out]. destruct p as [sid b].
    cbn [state id session_id body] in *. subst st sid b.
    run_with Z.eqb_refl. repeat split; reflexivity.
  - apply run_ops_established.
  - intros p seq ack data Hnew Hbody.
    destruct s as [i ms ts st cl mx nm' inc out]. destruct p as [sid b].
    cbn [state body] in *. subst st b.
    destruct (negb (sid =? i)) eqn:Hid; run_with Hid; reflexivity.
Qed.

Lemma new_to_established_witness :
  (exists p seq options nm,
      op_recv (Some scenario_syn) = op_recv (Some p) /\
      session_id p = 7 /\
      body p = PACKET_TYPE_SYN seq options nm /\
      their_seq (final (run_op 7 (op_recv (Some scenario_syn))
                          scenario_new_session)) = seq) /\
  (session_recv 7 (Some scenario_syn) scenario_new_session
   = mk_outcome (Ret tt)
       {| id := 7; my_seq := 0xFFFE; their_seq := 100;
          state := SESSION_STATE_ESTABLISHED; is_closed := false;
          max_packet_size := 11; name := Some "dnscat2"%string;
          incoming_data := [];
          outgoing_data :=
            [x41; x42; x43; x44; x45; x46; x47; x48; x49; x4a] |} [] /\
   state (final (session_recv 7 (Some scenario_syn) scenario_new_session))
   = SESSION_STATE_ESTABLISHED /\
   their_seq (final (session_recv 7 (Some scenario_syn)
                       scenario_new_session)) = 100) /\
  state (final (run_ops 7 [op_send [x42]; op_do_actions; op_close]
                  (established_session 5 [x41])))
  = SESSION_STATE_ESTABLISHED /\
  session_recv 7 (Some (mk_packet 7 (PACKET_TYPE_MSG 0 0xFFFF [x61])))
               scenario_new_session
  = mk_outcome (Ret tt) scenario_new_session [].
Proof.
  destruct (new_to_established 7 scenario_new_session
              (op_recv (Some scenario_syn)) []) as (H1 & H2 & _ & H4).
  destruct (new_to_established 7 (established_session 5 [x41]) op_close
              [op_send [x42]; op_do_actions; op_close]) as (_ & _ & H3 & _).
  split; [apply H1; reflexivity|].
  split; [apply (H2 scenario_syn 100 0 None); reflexivity|].
  split; [apply H3; reflexivity|].
  apply (H4 (mk_packet 7 (PACKET_TYPE_MSG 0 0xFFFF [x61])) 0 0xFFFF [x61]);
    reflexivity.
Defined.

(** ** Creation *)

(** C5: the id and my_seq of a new session are [rand() % 0xFFFF]: they lie
    in 0..65534 and are never 65535, whatever [rand()] returns; the session
    is in state NEW with their_seq 0, the closing flag unset and both queues
    empty. *)
Theorem session_create_fields (rand_id rand_seq max_size : Z) :
  0 <= rand_id -> 0 <= rand_seq ->
  let s := session_create rand_id rand_seq max_size in
  0 <= id s < 65535 /\ 0 <= my_seq s < 65535 /\
  id s <> 65535 /\ my_seq s <> 65535 /\
  state s = SESSION_STATE_NEW /\ their_seq s = 0 /\ is_closed s = false /\
  incoming_data s = [] /\ outgoing_data s = [].
Proof.
  intros Hid Hseq s. subst s. unfold session_create, c_rem.
  cbn [id my_seq state their_seq is_closed incoming_data outgoing_data].
  pose proof (Z.rem_bound_pos rand_id 0xFFFF Hid ltac:(lia)) as H1.
  pose proof (Z.rem_bound_pos rand_seq 0xFFFF Hseq ltac:(lia)) as H2.
  repeat split; try reflexivity; lia.
Qed.

Lemma session_create_fields_witness :
  0 <= id (session_create 65535 131069 11) < 65535 /\
  0 <= my_seq (session_create 65535 131069 11) < 65535 /\
  id (session_create 65535 131069 11) <> 65535 /\
  my_seq (session_create 65535 131069 11) <> 65535 /\
  state (session_create 65535 131069 11) = SESSION_STATE_NEW /\
  their_seq (session_create 65535 131069 11) = 0 /\
  is_closed (session_create 65535 131069 11) = false /\
  incoming_data (session_create 65535 131069 11) = [] /\
  outgoing_data (session_create 65535 131069 11) = [].
Proof.
  apply (session_create_fields 65535 131069 11); lia.
Defined.

(** ** Teardown *)

Lemma queue_empty_test (b : buffer_t) :
  (buffer_get_remaining_bytes b =? 0) = true -> b = [].
Proof. intros H. apply remaining_zero. apply Z.eqb_eq. exact H. Qed.

Lemma run_op_fin_sent (msz : Z) (o : op) (s : session_t) :
  fin_sent (trace (run_op msz o s)) = true ->
  result (run_op msz o s) = Exit 0 /\
  fin_circumstances o (run_op msz o s).
Proof.
  unfold fin_circumstances, queues_empty.
  destruct s as [i ms ts st cl mx nm inc out].
  destruct o as [data | [[sid b]|] | | | nm']; cbn [run_op].
  - destruct st, nm; split_cases; cbn; discriminate.
  - destruct (Z.eqb_spec sid i) as [->|Hne].
    + destruct st, b, nm; split_cases; cbn; try discriminate; intros _;
        (split; [reflexivity|]); right;
        eexists; (split; [reflexivity|]); (split; [reflexivity|]);
        solve [left; eexists; reflexivity
              |right; split; [reflexivity|eexists; reflexivity]].
    + rewrite session_recv_other_id by exact Hne. cbn. discriminate.
  - cbn. discriminate.
  - destruct st, nm; split_cases; cbn; try discriminate; intros _;
      (split; [reflexivity|]); left;
      repeat match goal with
        | H : _ && _ = true |- _ => apply andb_prop in H; destruct H
        | H : (buffer_get_remaining_bytes _ =? 0) = true |- _ =>
            apply queue_empty_test in H
        end;
      subst; auto.
  - split_cases; cbn; try discriminate; intros _;
      (split; [reflexivity|]); left;
      repeat match goal with
        | H : _ && _ = true |- _ => apply andb_prop in H; destruct H
        | H : (buffer_get_remaining_bytes _ =? 0) = true |- _ =>
            apply queue_empty_test in H
        end;
      subst; auto.
  - cbn. discriminate.
Qed.

Lemma fin_sent_app (t1 t2 : list event) :
  fin_sent (t1 ++ t2) = fin_sent t1 || fin_sent t2.
Proof. unfold fin_sent. apply existsb_app. Qed.

(** C4, as the code has it: in every execution, a final FIN is sent only
    (a) by [session_close] or [session_do_actions] when the closing flag is
    set and both queues are empty, or (b) by [session_recv] on a packet that
    carries the id of the session, when the session is ESTABLISHED and the
    type of the packet is unknown or when the state field holds no valid
    state, whatever the queues and the closing flag are; the process then
    exits with status 0. *)
Theorem final_fin_conditions (msz : Z) (os : list op) (s : session_t) :
  fin_sent (trace (run_ops msz os s)) = true ->
  result (run_ops msz os s) = Exit 0 /\
  exists o, In o os /\ fin_circumstances o (run_ops msz os s).
Proof.
  revert s. induction os as [|o os IH]; intros s.
  - cbn. discriminate.
  - cbn [run_ops]. unfold bind.
    pose proof (run_op_fin_sent msz o s) as Hstep.
    destruct (run_op msz o s) as [[[]|code] s1 t1] eqn:Hrun;
      cbn [result trace] in Hstep.
    + specialize (IH s1).
      destruct (run_ops msz os s1) as [r s2 t2] eqn:Hrest.
      cbn [result trace] in *. rewrite fin_sent_app. intros Hfin.
      destruct (fin_sent t1) eqn:Ht1.
      * destruct (Hstep eq_refl) as [Hret _]. discriminate Hret.
      * cbn [orb] in Hfin. destruct (IH Hfin) as (Hexit & o' & Hin & Hc).
        split; [exact Hexit|]. exists o'. split; [right; exact Hin|].
        exact Hc.
    + cbn [result trace]. intros Hfin.
      destruct (Hstep Hfin) as [Hexit Hc].
      split; [exact Hexit|]. exists o. split; [left; reflexivity|].
      exact Hc.
Qed.

Lemma final_fin_conditions_witness :
  result (run_ops 7 fin_while_queued_ops (session_create 1 2 11)) = Exit 0 /\
  exists o,
    In o fin_while_queued_ops /\
    fin_circumstances o
      (run_ops 7 fin_while_queued_ops (session_create 1 2 11)).
Proof.
  apply (final_fin_conditions 7 fin_while_queued_ops (session_create 1 2 11)).
  reflexivity.
Defined.

(** The claim C4 as the specification words it fails on the execution
    [fin_while_queued_ops]: a FIN is sent although a byte is still queued,
    no close was requested and the peer sent no FIN. *)
Lemma final_fin_while_queued :
  ~ teardown_claim 7 fin_while_queued_ops (session_create 1 2 11).
Proof.
  unfold teardown_claim. intros H.
  destruct (H eq_refl) as [[_ Hout] _].
  discriminate Hout.
Qed.

(** ** Reachable sessions keep their 16-bit fields in range *)

Lemma session_create_wf (rand_id rand_seq max_size : Z) :
  0 <= rand_id -> 0 <= rand_seq ->
  wf_session (session_create rand_id rand_seq max_size).
Proof.
  intros Hid Hseq. unfold wf_session, is_uint16, session_create, c_rem.
  cbn [id my_seq their_seq].
  pose proof (Z.rem_bound_pos rand_id 0xFFFF Hid ltac:(lia)).
  pose proof (Z.rem_bound_pos rand_seq 0xFFFF Hseq ltac:(lia)).
  lia.
Qed.

Lemma run_op_wf (msz : Z) (o : op) (s : session_t) :
  wf_op o -> wf_session s -> wf_session (final (run_op msz o s)).
Proof.
  unfold wf_session, is_uint16.
  destruct s as [i ms ts st cl mx nm inc out].
  cbn [id my_seq their_seq]. intros Ho Hs.
  destruct o as [data | [[sid b]|] | | | nm']; cbn [run_op wf_op] in *;
    try (destruct st, nm; split_cases; cbn; exact Hs).
  destruct Ho as [_ Hb]. cbn [body] in Hb. unfold is_uint16 in Hb.
  destruct st, b, nm; split_cases; cbn; rewrite ?land_FFFF_mod;
    repeat split; try lia; apply Z.mod_pos_bound; lia.
Qed.

Lemma run_ops_wf (msz : Z) (os : list op) :
  forall s : session_t,
    Forall wf_op os -> wf_session s ->
    wf_session (final (run_ops msz os s)).
Proof.
  induction os as [|o os IH]; intros s Hos Hs.
  - exact Hs.
  - inversion Hos as [|o' os' Ho Hos']; subst.
    cbn [run_ops]. unfold bind.
    pose proof (run_op_wf msz o s Ho Hs) as H1.
    destruct (run_op msz o s) as [[[]|code] s1 t1]; cbn [final] in *.
    + specialize (IH s1 Hos' H1).
      destruct (run_ops msz os s1) as [r s2 t2]. exact IH.
    + exact H1.
Qed.

(** * Further properties of session.c *)

(** ** The send path and [session_send] *)

Lemma set_outgoing_same (s : session_t) :
  set_outgoing_data (outgoing_data s) s = s.
Proof. destruct s; reflexivity. Qed.

Lemma do_send_stuff_new (msz : Z) (s : session_t) :
  state s = SESSION_STATE_NEW ->
  do_send_stuff msz s
  = mk_outcome (Ret tt) s
      [outgoing_data_callback (id s)
         (mk_packet (id s) (PACKET_TYPE_SYN (my_seq s) 0 (name s)))].
Proof.
  destruct s as [i ms ts st cl mx nm inc out]. cbn [state]. intros ->.
  run_session. destruct nm; reflexivity.
Qed.

Lemma do_send_stuff_established (msz : Z) (s : session_t) :
  state s = SESSION_STATE_ESTABLISHED ->
  do_send_stuff msz s
  = mk_outcome (Ret tt) s
      [outgoing_data_callback (id s)
         (mk_packet (id s)
            (PACKET_TYPE_MSG (my_seq s) (their_seq s)
               (firstn (Z.to_nat (max_packet_payload msz s))
                       (outgoing_data s))))].
Proof.
  destruct s as [i ms ts st cl mx nm inc out]. cbn [state]. intros ->.
  run_session. cbn [buffer_read_remaining_bytes]. run_session. reflexivity.
Qed.

Lemma do_send_stuff_invalid (msz : Z) (s : session_t) (v : Z) :
  state s = SESSION_STATE_invalid v ->
  do_send_stuff msz s = mk_outcome (Exit 1) s [].
Proof.
  destruct s as [i ms ts st cl mx nm inc out]. cbn [state]. intros ->.
  run_session. reflexivity.
Qed.

(** X1: [session_send] appends the data to the tail of the outgoing queue,
    changes nothing else, and drives the send path once on the grown
    queue: a session in state NEW sends its SYN and none of the data, an
    ESTABLISHED session sends one MSG with the first
    [min (max_packet_payload, remaining)] bytes of the grown queue, and a
    session whose state is invalid exits with status 1 after the data was
    queued, without any callback. *)
Theorem session_send_outcome (msz : Z) (s : session_t) (data : list byte) :
  let s' := set_outgoing_data (outgoing_data s ++ data) s in
  (state s = SESSION_STATE_NEW ->
   session_send msz data s
   = mk_outcome (Ret tt) s'
       [outgoing_data_callback (id s)
          (mk_packet (id s) (PACKET_TYPE_SYN (my_seq s) 0 (name s)))]) /\
  (state s = SESSION_STATE_ESTABLISHED ->
   session_send msz data s
   = mk_outcome (Ret tt) s'
       [outgoing_data_callback (id s)
          (mk_packet (id s)
             (PACKET_TYPE_MSG (my_seq s) (their_seq s)
                (firstn (Z.to_nat
                           (Z.min (max_packet_payload msz s)
                                  (buffer_get_remaining_bytes
                                     (outgoing_data s ++ data))))
                        (outgoing_data s ++ data))))]) /\
  (forall v, state s = SESSION_STATE_invalid v ->
   session_send msz data s = mk_outcome (Exit 1) s' []).
Proof.
  intros s'.
  assert (Hrun : session_send msz data s
                 = match do_send_stuff msz s' with
                   | mk_outcome r s2 t2 => mk_outcome r s2 t2
                   end).
  { unfold session_send, bind, modify, buffer_add_bytes. fold s'.
    destruct (do_send_stuff msz s') as [r s2 t2]. reflexivity. }
  split; [|split].
  - intros Hst. rewrite Hrun, do_send_stuff_new by exact Hst. reflexivity.
  - intros Hst. rewrite Hrun, do_send_stuff_established by exact Hst.
    rewrite <- peek_min. reflexivity.
  - intros v Hst. rewrite Hrun, (do_send_stuff_invalid msz s' v) by exact Hst.
    reflexivity.
Qed.

Lemma session_send_outcome_witness :
  session_send 7 [x45; x46] scenario_new_session
  = mk_outcome (Ret tt)
      (set_outgoing_data
         [x41; x42; x43; x44; x45; x46; x47; x48; x49; x4a; x45; x46]
         scenario_new_session)
      [outgoing_data_callback 7
         (mk_packet 7 (PACKET_TYPE_SYN 0xFFFE 0 (Some "dnscat2"%string)))] /\
  session_send 7 [x44; x45] bad_ack_session
  = mk_outcome (Ret tt)
      (established_session 0xFFFE [x41; x42; x43; x44; x45])
      [outgoing_data_callback 7
         (mk_packet 7 (PACKET_TYPE_MSG 0xFFFE 100 [x41; x42; x43; x44]))] /\
  session_send 7 [x43] foreign_id_session
  = mk_outcome (Exit 1)
      (set_outgoing_data [x41; x42; x43] foreign_id_session) [].
Proof.
  split; [|split].
  - apply (proj1 (session_send_outcome 7 scenario_new_session [x45; x46])).
    reflexivity.
  - apply (proj1 (proj2 (session_send_outcome 7 bad_ack_session [x44; x45]))).
    reflexivity.
  - apply (proj2 (proj2 (session_send_outcome 7 foreign_id_session [x43])) 9).
    reflexivity.
Defined.

(** ** Packets that [session_recv] ignores or treats as fatal *)

(** X2: in state ESTABLISHED a MSG for this session whose sequence number
    is not their_seq is dropped, whatever it acknowledges and whatever data
    it carries: the session is unchanged, nothing is delivered, nothing is
    sent, and the call returns. *)
Theorem session_recv_bad_seq
        (msz : Z) (s : session_t) (p : packet_t)
        (seq ack : Z) (data : list byte) :
  state s = SESSION_STATE_ESTABLISHED ->
  body p = PACKET_TYPE_MSG seq ack data ->
  seq <> their_seq s ->
  session_recv msz (Some p) s = mk_outcome (Ret tt) s [].
Proof.
  intros Hst Hbody Hseq. apply Z.eqb_neq in Hseq.
  destruct s as [i ms ts st cl mx nm inc out]. destruct p as [sid b].
  cbn [state their_seq body] in *. subst st b.
  destruct (negb (sid =? i)) eqn:Hid; run_with Hseq; rewrite ?Hid;
    run_with Hseq; reflexivity.
Qed.

Lemma session_recv_bad_seq_witness :
  session_recv 7 (Some (mk_packet 7 (PACKET_TYPE_MSG 101 0xFFFF [x61])))
               bad_ack_session
  = mk_outcome (Ret tt) bad_ack_session [].
Proof.
  apply (session_recv_bad_seq 7 bad_ack_session
           (mk_packet 7 (PACKET_TYPE_MSG 101 0xFFFF [x61])) 101 0xFFFF [x61]).
  - reflexivity.
  - reflexivity.
  - vm_compute. discriminate.
Defined.

(** X3: a SYN received in state ESTABLISHED is ignored: their_seq is not
    reset to the sequence number of the SYN, the session is unchanged
    altogether, no callback is invoked, and the call returns. *)
Theorem session_recv_syn_established
        (msz : Z) (s : session_t) (p : packet_t)
        (seq options : Z) (nm : option string) :
  state s = SESSION_STATE_ESTABLISHED ->
  body p = PACKET_TYPE_SYN seq options nm ->
  session_recv msz (Some p) s = mk_outcome (Ret tt) s [].
Proof.
  intros Hst Hbody.
  destruct s as [i ms ts st cl mx nm' inc out]. destruct p as [sid b].
  cbn [state body] in *. subst st b.
  destruct (negb (sid =? i)) eqn:Hid; run_with Hid; reflexivity.
Qed.

Lemma session_recv_syn_established_witness :
  session_recv 7 (Some (mk_packet 7 (PACKET_TYPE_SYN 555 0 None)))
               bad_ack_session
  = mk_outcome (Ret tt) bad_ack_session [].
Proof.
  apply (session_recv_syn_established 7 bad_ack_session
           (mk_packet 7 (PACKET_TYPE_SYN 555 0 None)) 555 0 None);
    reflexivity.
Defined.

(** X4: the fatal packets.  A packet that could not be parsed exits with
    status 1.  For a packet with the id of the session: a FIN exits with
    status 0 in state NEW and in state ESTABLISHED, and no FIN is sent in
    reply; a packet of unknown type exits with status 1 in state NEW, and
    in state ESTABLISHED it exits with status 0 after one FIN was sent; in
    an invalid state every packet exits with status 0 after one FIN was
    sent.  In all these cases the session record is as before and nothing
    is delivered. *)
Theorem session_recv_fatal (msz : Z) (s : session_t) :
  session_recv msz None s = mk_outcome (Exit 1) s [] /\
  (forall p,
     session_id p = id s -> body p = PACKET_TYPE_FIN ->
     state s = SESSION_STATE_NEW \/ state s = SESSION_STATE_ESTABLISHED ->
     session_recv msz (Some p) s = mk_outcome (Exit 0) s []) /\
  (forall p t,
     session_id p = id s -> body p = PACKET_TYPE_unknown t ->
     state s = SESSION_STATE_NEW ->
     session_recv msz (Some p) s = mk_outcome (Exit 1) s []) /\
  (forall p t,
     session_id p = id s -> body p = PACKET_TYPE_unknown t ->
     state s = SESSION_STATE_ESTABLISHED ->
     session_recv msz (Some p) s
     = mk_outcome (Exit 0) s
         [outgoing_data_callback (id s) (packet_create_fin (id s))]) /\
  (forall p v,
     session_id p = id s -> state s = SESSION_STATE_invalid v ->
     session_recv msz (Some p) s
     = mk_outcome (Exit 0) s
         [outgoing_data_callback (id s) (packet_create_fin (id s))]).
Proof.
  destruct s as [i ms ts st cl mx nm inc out].
  cbn [id state].
  split; [reflexivity|].
  split; [|split; [|split]].
  - intros [sid b] Hid Hb [Hst|Hst]; cbn [session_id body] in *;
      subst sid b st; run_with Z.eqb_refl; reflexivity.
  - intros [sid b] t Hid Hb Hst; cbn [session_id body] in *;
      subst sid b st; run_with Z.eqb_refl; reflexivity.
  - intros [sid b] t Hid Hb Hst; cbn [session_id body] in *;
      subst sid b st; run_with Z.eqb_refl; reflexivity.
  - intros [sid b] v Hid Hst; cbn [session_id body] in *;
      subst sid st; run_with Z.eqb_refl; reflexivity.
Qed.

Lemma session_recv_fatal_witness :
  session_recv 7 (Some (mk_packet 7 PACKET_TYPE_FIN)) scenario_new_session
  = mk_outcome (Exit 0) scenario_new_session [] /\
  session_recv 7 (Some (mk_packet 7 PACKET_TYPE_FIN)) bad_ack_session
  = mk_outcome (Exit 0) bad_ack_session [] /\
  session_recv 7 (Some (mk_packet 7 (PACKET_TYPE_unknown 0xFF)))
               scenario_new_session
  = mk_outcome (Exit 1) scenario_new_session [] /\
  session_recv 7 (Some (mk_packet 7 (PACKET_TYPE_unknown 0xFF)))
               bad_ack_session
  = mk_outcome (Exit 0) bad_ack_session
      [outgoing_data_callback 7 (packet_create_fin 7)] /\
  session_recv 7 (Some (mk_packet 7 (PACKET_TYPE_SYN 1 0 None)))
               foreign_id_session
  = mk_outcome (Exit 0) foreign_id_session
      [outgoing_data_callback 7 (packet_create_fin 7)].
Proof.
  destruct (session_recv_fatal 7 scenario_new_session)
    as (_ & Hfin_new & Hunk_new & _ & _).
  destruct (session_recv_fatal 7 bad_ack_session)
    as (_ & Hfin_est & _ & Hunk_est & _).
  destruct (session_recv_fatal 7 foreign_id_session)
    as (_ & _ & _ & _ & Hinv).
  split; [apply Hfin_new; [reflexivity | reflexivity | left; reflexivity]|].
  split; [apply Hfin_est; [reflexivity | reflexivity | right; reflexivity]|].
  split; [apply (Hunk_new _ 0xFF); reflexivity|].
  split; [apply (Hunk_est _ 0xFF); reflexivity|].
  apply (Hinv _ 9); reflexivity.
Defined.

(** X5: whenever [session_recv] terminates the process, it has not touched
    the session: the record is as before the call, the exit status is 0 or
    1, nothing was delivered to the receive callback, and the only packet
    that may have been sent is one FIN. *)
Theorem session_recv_exit_untouched
        (msz : Z) (packet : option packet_t) (s : session_t) (code : Z) :
  result (session_recv msz packet s) = Exit code ->
  final (session_recv msz packet s) = s /\
  (code = 0 \/ code = 1) /\
  delivered (trace (session_recv msz packet s)) = [] /\
  (sent (trace (session_recv msz packet s)) = [] \/
   sent (trace (session_recv msz packet s)) = [packet_create_fin (id s)]).
Proof.
  destruct s as [i ms ts st cl mx nm inc out].
  destruct packet as [[sid b]|].
  - destruct st, b, nm; split_cases; cbn; intros H;
      try discriminate H; injection H as <-; auto.
  - cbn. intros H. injection H as <-. auto.
Qed.

Lemma session_recv_exit_untouched_witness :
  final (session_recv 7 (Some (mk_packet 7 (PACKET_TYPE_unknown 0xFF)))
           bad_ack_session) = bad_ack_session /\
  (0 = 0 \/ 0 = 1) /\
  delivered (trace (session_recv 7
                      (Some (mk_packet 7 (PACKET_TYPE_unknown 0xFF)))
                      bad_ack_session)) = [] /\
  (sent (trace (session_recv 7
                  (Some (mk_packet 7 (PACKET_TYPE_unknown 0xFF)))
                  bad_ack_session)) = [] \/
   sent (trace (session_recv 7
                  (Some (mk_packet 7 (PACKET_TYPE_unknown 0xFF)))
                  bad_ack_session)) = [packet_create_fin 7]).
Proof.
  apply (session_recv_exit_untouched 7
           (Some (mk_packet 7 (PACKET_TYPE_unknown 0xFF)))
           bad_ack_session 0).
  reflexivity.
Defined.

(** ** What an accepted MSG delivers and triggers *)

(** X6: an accepted MSG (state ESTABLISHED, the id of the session, the
    expected sequence number, an acknowledgement within the queue) hands its
    data to the receive callback exactly once, as one piece, when the data
    is not empty, and does not invoke the receive callback when it is. *)
Theorem session_recv_delivery
        (msz : Z) (s : session_t) (p : packet_t) (ack : Z) (data : list byte) :
  state s = SESSION_STATE_ESTABLISHED ->
  session_id p = id s ->
  body p = PACKET_TYPE_MSG (their_seq s) ack data ->
  (ack - my_seq s) mod 65536
  <= buffer_get_remaining_bytes (outgoing_data s) ->
  delivered (trace (session_recv msz (Some p) s))
  = match data with
    | [] => []
    | _ :: _ => [data]
    end.
Proof.
  intros Hst Hid Hbody Hle. rewrite <- bytes_acked_of_mod in Hle.
  rewrite (session_recv_msg_accepted msz s p ack data Hst Hid Hbody Hle).
  cbn [trace]. unfold delivered. rewrite flat_map_app.
  match goal with
  | |- context [if ?c && ?d then _ else _] => destruct (c && d)
  end; cbn [flat_map app]; rewrite app_nil_r;
    destruct data as [|x data]; reflexivity.
Qed.

Lemma session_recv_delivery_witness :
  delivered (trace (session_recv 7 (Some ack_to_0002) wraparound_session))
  = [[x61]].
Proof.
  apply (session_recv_delivery 7 wraparound_session ack_to_0002 2 [x61]).
  - reflexivity.
  - reflexivity.
  - reflexivity.
  - vm_compute. discriminate.
Defined.

(** X7: an accepted MSG makes [session_recv] send again exactly when it
    acknowledges new bytes ([0 < n]) and bytes remain queued after them
    ([n < remaining]); it then sends one MSG whose sequence number is the
    advanced my_seq, whose acknowledgement is the advanced their_seq, and
    whose data are the next [min (max_packet_payload, remaining - n)] bytes
    of the queue, those that follow the acknowledged ones.  Otherwise it
    sends nothing. *)
Theorem session_recv_redrive
        (msz : Z) (s : session_t) (p : packet_t) (ack : Z) (data : list byte) :
  state s = SESSION_STATE_ESTABLISHED ->
  session_id p = id s ->
  body p = PACKET_TYPE_MSG (their_seq s) ack data ->
  (ack - my_seq s) mod 65536
  <= buffer_get_remaining_bytes (outgoing_data s) ->
  let n := (ack - my_seq s) mod 65536 in
  let remaining := buffer_get_remaining_bytes (outgoing_data s) in
  sent (trace (session_recv msz (Some p) s))
  = if (0 <? n) && (n <? remaining)
    then [mk_packet (id s)
            (PACKET_TYPE_MSG
               ((my_seq s + n) mod 65536)
               ((their_seq s + Z.of_nat (length data)) mod 65536)
               (firstn (Z.to_nat (Z.min (max_packet_payload msz s)
                                        (remaining - n)))
                       (skipn (Z.to_nat n) (outgoing_data s))))]
    else [].
Proof.
  intros Hst Hid Hbody Hle n remaining.
  pose proof (Z.mod_pos_bound (ack - my_seq s) 65536 ltac:(lia)) as Hn.
  fold n in Hle, Hn.
  assert (Hacc : bytes_acked_of ack (my_seq s)
                 <= buffer_get_remaining_bytes (outgoing_data s))
    by (rewrite bytes_acked_of_mod; exact Hle).
  rewrite (session_recv_msg_accepted msz s p ack data Hst Hid Hbody Hacc).
  rewrite bytes_acked_of_mod. fold n.
  cbn [trace my_seq their_seq outgoing_data]. unfold sent.
  rewrite flat_map_app.
  rewrite remaining_consume by lia. fold remaining.
  replace (flat_map _ (if 0 <? Z.of_nat (length data) then _ else _))
    with (@nil packet_t)
    by (destruct (0 <? Z.of_nat (length data)); reflexivity).
  cbn [app].
  destruct (Z.eqb_spec n 0) as [Hz|Hnz];
    destruct (Z.ltb_spec 0 n) as [Hpos|Hnpos]; try lia;
    destruct (Z.ltb_spec n remaining) as [Hlt|Hge];
    destruct (Z.ltb_spec 0 (remaining - n)) as [Hrem|Hnrem]; try lia;
    cbn [negb andb flat_map app]; try reflexivity.
  unfold packet_create_msg, max_packet_payload. cbn [max_packet_size].
  fold (max_packet_payload msz s).
  rewrite (peek_min (buffer_consume (outgoing_data s) n)).
  rewrite remaining_consume by lia. reflexivity.
Qed.

Lemma session_recv_redrive_witness :
  sent (trace (session_recv 7 (Some ack_to_0002)
                 (established_session 0xFFFE
                    [x41; x42; x43; x44; x45; x46; x47; x48; x49; x4a])))
  = [mk_packet 7 (PACKET_TYPE_MSG 2 101 [x45; x46; x47; x48])].
Proof.
  apply (session_recv_redrive 7
           (established_session 0xFFFE
              [x41; x42; x43; x44; x45; x46; x47; x48; x49; x4a])
           ack_to_0002 2 [x61]).
  - reflexivity.
  - reflexivity.
  - reflexivity.
  - vm_compute. discriminate.
Defined.

(** ** The tick and the close request *)

Lemma bind_ret {A B : Type} (m : M A) (k : A -> M B)
      (s s1 : session_t) (a : A) (t1 : list event) :
  m s = mk_outcome (Ret a) s1 t1 ->
  bind m k s
  = mk_outcome (result (k a s1)) (final (k a s1)) (t1 ++ trace (k a s1)).
Proof. intros H. unfold bind. rewrite H. destruct (k a s1); reflexivity. Qed.

Lemma bind_exit {A B : Type} (m : M A) (k : A -> M B)
      (s s1 : session_t) (code : Z) (t1 : list event) :
  m s = mk_outcome (Exit code) s1 t1 ->
  bind m k s = mk_outcome (Exit code) s1 t1.
Proof. intros H. unfold bind. rewrite H. reflexivity. Qed.

Lemma clean_up_buffers_same (s : session_t) :
  clean_up_buffers s = mk_outcome (Ret tt) s [].
Proof.
  destruct s as [i ms ts st cl mx nm inc out].
  destruct inc, out; reflexivity.
Qed.

Lemma send_final_fin_exit (s : session_t) :
  bind send_final_fin (fun _ => @exit unit 0) s
  = mk_outcome (Exit 0) s
      [outgoing_data_callback (id s) (packet_create_fin (id s))].
Proof. reflexivity. Qed.

Lemma session_do_actions_run (msz : Z) (s : session_t) :
  session_do_actions msz s
  = match do_send_stuff msz s with
    | mk_outcome (Ret _) s1 t1 =>
        if teardown_due s1
        then mk_outcome (Exit 0) s1
               (t1 ++ [outgoing_data_callback (id s1)
                         (packet_create_fin (id s1))])
        else mk_outcome (Ret tt) s1 (t1 ++ [])
    | mk_outcome (Exit code) s1 t1 => mk_outcome (Exit code) s1 t1
    end.
Proof.
  unfold session_do_actions, bind. rewrite clean_up_buffers_same.
  destruct (do_send_stuff msz s) as [[[]|code] s1 t1]; [|reflexivity].
  unfold get, teardown_due.
  destruct (is_closed s1 && _ && _); reflexivity.
Qed.

Lemma session_do_actions_final (msz : Z) (s : session_t) :
  final (session_do_actions msz s) = s.
Proof.
  rewrite session_do_actions_run.
  destruct (state s) as [| |v] eqn:Hst.
  - rewrite (do_send_stuff_new msz s Hst).
    destruct (teardown_due s); reflexivity.
  - rewrite (do_send_stuff_established msz s Hst).
    destruct (teardown_due s); reflexivity.
  - rewrite (do_send_stuff_invalid msz s v Hst). reflexivity.
Qed.

(** X8: [session_do_actions] never changes a field of the session nor the
    bytes held by its queues (it only clears queues that are empty).  In state
    NEW or ESTABLISHED it runs the send path once; when the closing flag is
    set and both queues are empty it then sends one FIN and exits with
    status 0, and otherwise it returns.  In an invalid state it exits with
    status 1 and sends nothing, closing or not.  As long as the closing flag
    is unset, a second tick sends the same packet again. *)
Theorem session_do_actions_outcome (msz : Z) (s : session_t) :
  final (session_do_actions msz s) = s /\
  (state s = SESSION_STATE_NEW \/ state s = SESSION_STATE_ESTABLISHED ->
   session_do_actions msz s
   = mk_outcome (if teardown_due s then Exit 0 else Ret tt) s
       (trace (do_send_stuff msz s)
        ++ (if teardown_due s
            then [outgoing_data_callback (id s) (packet_create_fin (id s))]
            else []))) /\
  (forall v, state s = SESSION_STATE_invalid v ->
   session_do_actions msz s = mk_outcome (Exit 1) s []) /\
  (state s = SESSION_STATE_NEW \/ state s = SESSION_STATE_ESTABLISHED ->
   is_closed s = false ->
   run_ops msz [op_do_actions; op_do_actions] s
   = mk_outcome (Ret tt) s
       (trace (do_send_stuff msz s) ++ trace (do_send_stuff msz s))).
Proof.
  assert (Hvalid :
    state s = SESSION_STATE_NEW \/ state s = SESSION_STATE_ESTABLISHED ->
    session_do_actions msz s
    = mk_outcome (if teardown_due s then Exit 0 else Ret tt) s
        (trace (do_send_stuff msz s)
         ++ (if teardown_due s
             then [outgoing_data_callback (id s) (packet_create_fin (id s))]
             else []))).
  { intros [Hst|Hst]; rewrite session_do_actions_run;
      [rewrite (do_send_stuff_new msz s Hst)
      |rewrite (do_send_stuff_established msz s Hst)];
      cbn [trace]; destruct (teardown_due s); reflexivity. }
  assert (Hinvalid : forall v, state s = SESSION_STATE_invalid v ->
            session_do_actions msz s = mk_outcome (Exit 1) s []).
  { intros v Hst. rewrite session_do_actions_run.
    rewrite (do_send_stuff_invalid msz s v Hst). reflexivity. }
  split; [|split; [exact Hvalid|split; [exact Hinvalid|]]].
  - destruct (state s) as [| |v] eqn:Hst.
    + rewrite Hvalid by (left; reflexivity). reflexivity.
    + rewrite Hvalid by (right; reflexivity). reflexivity.
    + rewrite (Hinvalid v eq_refl). reflexivity.
  - intros Hst Hcl.
    assert (Hdue : teardown_due s = false)
      by (unfold teardown_due; rewrite Hcl; reflexivity).
    specialize (Hvalid Hst). rewrite Hdue, app_nil_r in Hvalid.
    cbn [run_ops run_op].
    rewrite (bind_ret _ _ s s tt _ Hvalid).
    rewrite (bind_ret _ _ s s tt _ Hvalid).
    cbn [ret result final trace]. rewrite app_nil_r. reflexivity.
Qed.

Lemma session_do_actions_outcome_witness :
  session_do_actions 7 bad_ack_session
  = mk_outcome (Ret tt) bad_ack_session
      [outgoing_data_callback 7
         (mk_packet 7 (PACKET_TYPE_MSG 0xFFFE 100 [x41; x42; x43]))] /\
  session_do_actions 7 foreign_id_session
  = mk_outcome (Exit 1) foreign_id_session [] /\
  run_ops 7 [op_do_actions; op_do_actions] scenario_new_session
  = mk_outcome (Ret tt) scenario_new_session
      [outgoing_data_callback 7
         (mk_packet 7 (PACKET_TYPE_SYN 0xFFFE 0 (Some "dnscat2"%string)));
       outgoing_data_callback 7
         (mk_packet 7 (PACKET_TYPE_SYN 0xFFFE 0 (Some "dnscat2"%string)))].
Proof.
  destruct (session_do_actions_outcome 7 bad_ack_session)
    as (_ & Hvalid & _ & _).
  destruct (session_do_actions_outcome 7 foreign_id_session)
    as (_ & _ & Hinvalid & _).
  destruct (session_do_actions_outcome 7 scenario_new_session)
    as (_ & _ & _ & Htwice).
  split; [apply Hvalid; right; reflexivity|].
  split; [apply (Hinvalid 9); reflexivity|].
  apply Htwice; [left; reflexivity | reflexivity].
Defined.

Lemma session_close_drained (s : session_t) :
  incoming_data s = [] -> outgoing_data s = [] ->
  session_close s
  = mk_outcome (Exit 0) (set_is_closed true s)
      [outgoing_data_callback (id s) (packet_create_fin (id s))].
Proof.
  destruct s as [i ms ts st cl mx nm inc out].
  cbn [incoming_data outgoing_data]. intros -> ->. reflexivity.
Qed.

Lemma session_close_pending (s : session_t) :
  incoming_data s <> [] \/ outgoing_data s <> [] ->
  session_close s = mk_outcome (Ret tt) (set_is_closed true s) [].
Proof.
  destruct s as [i ms ts st cl mx nm inc out].
  cbn [incoming_data outgoing_data].
  destruct inc, out; intros [H|H]; try contradiction; reflexivity.
Qed.

(** X9: [session_close] always sets the closing flag, so that it is set
    after the call whatever it was before, and changes no other field.
    With both queues empty it sends one FIN and exits with status 0, in
    every state; with bytes still queued it sends nothing and returns, so
    that the teardown is left to a later tick. *)
Theorem session_close_outcome (s : session_t) :
  is_closed (final (session_close s)) = true /\
  final (session_close s)
  = {| id := id s;
       my_seq := my_seq s;
       their_seq := their_seq s;
       state := state s;
       is_closed := true;
       max_packet_size := max_packet_size s;
       name := name s;
       incoming_data := incoming_data s;
       outgoing_data := outgoing_data s |} /\
  (incoming_data s = [] -> outgoing_data s = [] ->
   result (session_close s) = Exit 0 /\
   trace (session_close s)
   = [outgoing_data_callback (id s) (packet_create_fin (id s))]) /\
  (incoming_data s <> [] \/ outgoing_data s <> [] ->
   result (session_close s) = Ret tt /\
   trace (session_close s) = []).
Proof.
  assert (Hfinal : final (session_close s)
                   = {| id := id s;
                        my_seq := my_seq s;
                        their_seq := their_seq s;
                        state := state s;
                        is_closed := true;
                        max_packet_size := max_packet_size s;
                        name := name s;
                        incoming_data := incoming_data s;
                        outgoing_data := outgoing_data s |}).
  { destruct s as [i ms ts st cl mx nm inc out].
    destruct inc, out; reflexivity. }
  split; [rewrite Hfinal; reflexivity|].
  split; [exact Hfinal|].
  split.
  - intros Hinc Hout. rewrite (session_close_drained s Hinc Hout).
    split; reflexivity.
  - intros Hq. rewrite (session_close_pending s Hq). split; reflexivity.
Qed.

Lemma session_close_outcome_witness :
  is_closed (final (session_close (established_session 5 []))) = true /\
  final (session_close bad_ack_session)
  = {| id := 7; my_seq := 0xFFFE; their_seq := 100;
       state := SESSION_STATE_ESTABLISHED; is_closed := true;
       max_packet_size := 11; name := None;
       incoming_data := []; outgoing_data := [x41; x42; x43] |} /\
  (result (session_close (established_session 5 [])) = Exit 0 /\
   trace (session_close (established_session 5 []))
   = [outgoing_data_callback 7 (packet_create_fin 7)]) /\
  (result (session_close bad_ack_session) = Ret tt /\
   trace (session_close bad_ack_session) = []).
Proof.
  destruct (session_close_outcome (established_session 5 []))
    as (Hflag & _ & Hdrained & _).
  destruct (session_close_outcome bad_ack_session)
    as (_ & Hfinal & _ & Hpending).
  split; [exact Hflag|].
  split; [exact Hfinal|].
  split; [apply Hdrained; reflexivity|].
  apply Hpending. right. discriminate.
Defined.

(** X10: deferred teardown.  An ESTABLISHED session with bytes queued
    (fewer than 65536) is closed, then receives a MSG without data that
    acknowledges all of them, then is ticked: the close sends nothing, the
    acknowledgement empties the queue and sends nothing, and the tick sends
    one empty MSG followed by the final FIN and exits with status 0.  At
    the exit the closing flag is set, the queue is empty and my_seq has
    advanced by the number of bytes that were queued. *)
Theorem deferred_teardown
        (msz : Z) (s : session_t) (p : packet_t) :
  wf_session s ->
  state s = SESSION_STATE_ESTABLISHED ->
  incoming_data s = [] ->
  0 < buffer_get_remaining_bytes (outgoing_data s) < 65536 ->
  session_id p = id s ->
  body p
  = PACKET_TYPE_MSG (their_seq s)
      ((my_seq s + buffer_get_remaining_bytes (outgoing_data s)) mod 65536)
      [] ->
  let seq' :=
    (my_seq s + buffer_get_remaining_bytes (outgoing_data s)) mod 65536 in
  run_ops msz [op_close; op_recv (Some p); op_do_actions] s
  = mk_outcome (Exit 0)
      (set_is_closed true (set_my_seq seq' (set_outgoing_data [] s)))
      [outgoing_data_callback (id s)
         (mk_packet (id s) (PACKET_TYPE_MSG seq' (their_seq s) []));
       outgoing_data_callback (id s) (packet_create_fin (id s))].
Proof.
  intros (_ & Hms & Hts) Hst Hinc Hlen Hid Hbody seq'.
  set (len := buffer_get_remaining_bytes (outgoing_data s)) in *.
  set (s1 := set_is_closed true s).
  assert (Hn : bytes_acked_of seq' (my_seq s1) = len).
  { rewrite bytes_acked_of_mod. subst seq' s1. cbn [my_seq set_is_closed].
    rewrite Zminus_mod_idemp_l.
    replace (my_seq s + len - my_seq s) with len by lia.
    apply Z.mod_small. lia. }
  assert (Hclose : session_close s = mk_outcome (Ret tt) s1 []).
  { apply session_close_pending. right. intros Hout.
    subst len. rewrite Hout in Hlen. cbn in Hlen. lia. }
  assert (Hrecv : session_recv msz (Some p) s1
                  = mk_outcome (Ret tt)
                      (set_is_closed true
                         (set_my_seq seq' (set_outgoing_data [] s))) []).
  { rewrite (session_recv_msg_accepted msz s1 p seq' []);
      [| exact Hst | exact Hid | exact Hbody
       | rewrite Hn; subst len s1; cbn [outgoing_data set_is_closed]; lia ].
    rewrite Hn.
    assert (Hdrop : buffer_consume (outgoing_data s1) len = []).
    { unfold buffer_consume. apply skipn_all2.
      subst len s1. cbn [outgoing_data set_is_closed].
      unfold buffer_get_remaining_bytes. lia. }
    rewrite Hdrop.
    destruct (Z.eqb_spec len 0) as [Hz|_]; [lia|].
    cbn [length Z.of_nat outgoing_data buffer_get_remaining_bytes
         Z.ltb Z.compare andb app].
    rewrite Z.add_0_r, (Z.mod_small (their_seq s1) 65536)
      by (subst s1; exact Hts).
    subst s1 seq' len.
    destruct s as [i ms ts st cl mx nm inc out].
    cbn in Hst. subst st. reflexivity. }
  set (s2 := set_is_closed true (set_my_seq seq' (set_outgoing_data [] s)))
    in *.
  assert (Htick : session_do_actions msz s2
                  = mk_outcome (Exit 0) s2
                      [outgoing_data_callback (id s)
                         (mk_packet (id s)
                            (PACKET_TYPE_MSG seq' (their_seq s) []));
                       outgoing_data_callback (id s)
                         (packet_create_fin (id s))]).
  { rewrite session_do_actions_run.
    rewrite (do_send_stuff_established msz s2) by exact Hst.
    subst s2. destruct s as [i ms ts st cl mx nm inc out].
    cbn in Hinc. subst inc. cbn. rewrite firstn_nil. reflexivity. }
  cbn [run_ops run_op].
  rewrite (bind_ret _ _ s s1 tt [] Hclose).
  rewrite (bind_ret _ _ s1 s2 tt [] Hrecv).
  rewrite (bind_exit _ _ s2 s2 0 _ Htick).
  reflexivity.
Qed.

Lemma deferred_teardown_witness :
  run_ops 7 [op_close;
             op_recv (Some (mk_packet 7 (PACKET_TYPE_MSG 100 1 [])));
             op_do_actions] bad_ack_session
  = mk_outcome (Exit 0)
      (set_is_closed true (established_session 1 []))
      [outgoing_data_callback 7 (mk_packet 7 (PACKET_TYPE_MSG 1 100 []));
       outgoing_data_callback 7 (packet_create_fin 7)].
Proof.
  apply (deferred_teardown 7 bad_ack_session
           (mk_packet 7 (PACKET_TYPE_MSG 100 1 []))).
  - unfold wf_session, is_uint16. cbn. lia.
  - reflexivity.
  - reflexivity.
  - cbn. lia.
  - reflexivity.
  - reflexivity.
Defined.

(** ** Invariants of whole executions *)

Lemma preserves_run_ops (msz : Z) (P : session_t -> Prop) (os : list op) :
  (forall o, preserves P (run_op msz o)) -> preserves P (run_ops msz os).
Proof.
  intros Hop. induction os as [|o os IH]; cbn [run_ops].
  - apply preserves_ret.
  - apply preserves_bind; [apply Hop | intros _; exact IH].
Qed.

Ltac unfold_ops :=
  unfold session_send, session_recv, recv_msg, session_do_actions,
    session_close, session_set_name, clean_up_buffers, do_send_stuff,
    send_final_fin, session_send_packet.

Lemma preserves_identity (msz : Z) (s0 : session_t) (o : op) :
  preserves (fun s => id s = id s0 /\
                      max_packet_size s = max_packet_size s0 /\
                      (is_closed s0 = true -> is_closed s = true))
            (run_op msz o).
Proof.
  destruct o as [data | packet | | | nm]; cbn [run_op]; unfold_ops;
    preserve; cbn; intuition.
Qed.

(** X11: through every sequence of operations the id of the session and its
    maximal packet size stay what they were, and a closing flag that is set
    stays set: no operation assigns the id or the packet size, and none
    clears the flag. *)
Theorem session_identity_kept (msz : Z) (os : list op) (s : session_t) :
  id (final (run_ops msz os s)) = id s /\
  max_packet_size (final (run_ops msz os s)) = max_packet_size s /\
  (is_closed s = true -> is_closed (final (run_ops msz os s)) = true).
Proof.
  apply (preserves_run_ops msz
           (fun s' => id s' = id s /\
                      max_packet_size s' = max_packet_size s /\
                      (is_closed s = true -> is_closed s' = true))).
  - apply preserves_identity.
  - auto.
Qed.

Lemma session_identity_kept_witness :
  id (final (run_ops 7 [op_recv (Some ack_to_0002); op_send [x42]]
               (set_is_closed true wraparound_session))) = 7 /\
  max_packet_size
    (final (run_ops 7 [op_recv (Some ack_to_0002); op_send [x42]]
              (set_is_closed true wraparound_session))) = 11 /\
  is_closed (final (run_ops 7 [op_recv (Some ack_to_0002); op_send [x42]]
                      (set_is_closed true wraparound_session))) = true.
Proof.
  destruct (session_identity_kept 7
              [op_recv (Some ack_to_0002); op_send [x42]]
              (set_is_closed true wraparound_session)) as (H1 & H2 & H3).
  split; [exact H1|]. split; [exact H2|]. apply H3. reflexivity.
Defined.

Lemma run_op_id (msz : Z) (o : op) (s : session_t) :
  id (final (run_op msz o s)) = id s.
Proof. apply (preserves_identity msz s o s). auto. Qed.

Lemma run_op_events (msz : Z) (o : op) (s : session_t) :
  Forall (event_of (id s)) (trace (run_op msz o s)).
Proof.
  destruct s as [i ms ts st cl mx nm inc out].
  destruct o as [data | [[sid b]|] | | | nm']; cbn [run_op].
  - destruct st, nm; split_cases; cbn; repeat constructor.
  - destruct st, b, nm; split_cases; cbn; repeat constructor.
  - cbn. constructor.
  - destruct st, nm; split_cases; cbn; repeat constructor.
  - split_cases; cbn; repeat constructor.
  - cbn. constructor.
Qed.

(** X12: every callback invocation of every execution names this session:
    both callbacks are called with the id of the session, and every packet
    handed to the outgoing callback carries that id. *)
Theorem callbacks_name_the_session
        (msz : Z) (os : list op) (s : session_t) :
  Forall (event_of (id s)) (trace (run_ops msz os s)).
Proof.
  revert s. induction os as [|o os IH]; intros s.
  - constructor.
  - cbn [run_ops]. unfold bind.
    pose proof (run_op_events msz o s) as Hev.
    pose proof (run_op_id msz o s) as Hid.
    destruct (run_op msz o s) as [[[]|code] s1 t1]; cbn [final trace] in *.
    + specialize (IH s1). rewrite Hid in IH.
      destruct (run_ops msz os s1) as [r s2 t2]. cbn [trace] in *.
      apply Forall_app. split; assumption.
    + exact Hev.
Qed.

(** X13: the 16-bit fields stay in range.  A session made by
    [session_create] from non-negative results of [rand()] has its id, its
    my_seq and its their_seq within 0..65535, and it keeps them there
    through every sequence of operations whose incoming packets have 16-bit
    sequence and acknowledgement numbers. *)
Theorem reachable_sessions_wf
        (msz rand_id rand_seq max_size : Z) (os : list op) :
  0 <= rand_id -> 0 <= rand_seq ->
  Forall wf_op os ->
  wf_session (final (run_ops msz os
                       (session_create rand_id rand_seq max_size))).
Proof.
  intros Hid Hseq Hos.
  apply run_ops_wf; [exact Hos|].
  apply session_create_wf; assumption.
Qed.

Lemma reachable_sessions_wf_witness :
  wf_session
    (final (run_ops 7
              [op_send [x41; x42];
               op_recv (Some (mk_packet 1 (PACKET_TYPE_SYN 0xFFFF 0 None)));
               op_recv (Some (mk_packet 1 (PACKET_TYPE_MSG 0xFFFF 4 [x61])))]
              (session_create 1 2 11))).
Proof.
  apply (reachable_sessions_wf 7 1 2 11).
  - lia.
  - lia.
  - repeat constructor; unfold is_uint16; cbn; lia.
Defined.

(** X14: [session_set_name] replaces the name, whatever it was, and does
    nothing else: every other field is as before, no callback is invoked,
    and the call returns, in every state.  The SYN that the send path emits
    afterwards carries the name that was set last. *)
Theorem session_set_name_syn
        (msz : Z) (s : session_t) (nm0 nm : string) (data : list byte) :
  session_set_name nm s
  = mk_outcome (Ret tt)
      {| id := id s;
         my_seq := my_seq s;
         their_seq := their_seq s;
         state := state s;
         is_closed := is_closed s;
         max_packet_size := max_packet_size s;
         name := Some nm;
         incoming_data := incoming_data s;
         outgoing_data := outgoing_data s |} [] /\
  (state s = SESSION_STATE_NEW ->
   run_ops msz [op_set_name nm0; op_set_name nm; op_send data] s
   = mk_outcome (Ret tt)
       {| id := id s;
          my_seq := my_seq s;
          their_seq := their_seq s;
          state := SESSION_STATE_NEW;
          is_closed := is_closed s;
          max_packet_size := max_packet_size s;
          name := Some nm;
          incoming_data := incoming_data s;
          outgoing_data := outgoing_data s ++ data |}
       [outgoing_data_callback (id s)
          (mk_packet (id s) (PACKET_TYPE_SYN (my_seq s) 0 (Some nm)))]).
Proof.
  destruct s as [i ms ts st cl mx nm' inc out]. cbn [state].
  split; [reflexivity|].
  intros ->. reflexivity.
Qed.

Lemma session_set_name_syn_witness :
  session_set_name "b"%string (set_is_closed true scenario_new_session)
  = mk_outcome (Ret tt)
      {| id := 7; my_seq := 0xFFFE; their_seq := 0;
         state := SESSION_STATE_NEW; is_closed := true;
         max_packet_size := 11; name := Some "b"%string;
         incoming_data := [];
         outgoing_data :=
           [x41; x42; x43; x44; x45; x46; x47; x48; x49; x4a] |} [] /\
  run_ops 7 [op_set_name "a"%string; op_set_name "b"%string; op_send [x42]]
          (session_create 1 2 11)
  = mk_outcome (Ret tt)
      {| id := 1; my_seq := 2; their_seq := 0;
         state := SESSION_STATE_NEW; is_closed := false;
         max_packet_size := 11; name := Some "b"%string;
         incoming_data := []; outgoing_data := [x42] |}
      [outgoing_data_callback 1
         (mk_packet 1 (PACKET_TYPE_SYN 2 0 (Some "b"%string)))].
Proof.
  split.
  - apply (proj1 (session_set_name_syn 7
                    (set_is_closed true scenario_new_session)
                    "a"%string "b"%string [])).
  - apply (proj2 (session_set_name_syn 7 (session_create 1 2 11)
                    "a"%string "b"%string [x42])).
    reflexivity.
Defined.

(** ** Accounting of the two byte streams *)

Lemma queued_cons (o : op) (os : list op) :
  queued (o :: os) = queued [o] ++ queued os.
Proof. destruct o; cbn [queued app]; rewrite ?app_nil_r; reflexivity. Qed.

Lemma bytes_acked_of_range (ack seq : Z) :
  0 <= bytes_acked_of ack seq < 65536.
Proof. apply to_uint16_range. Qed.

(** One operation takes some [k] bytes off the head of the queue, after
    the bytes it queues were appended, and moves my_seq by [k]. *)
Lemma run_op_stream (msz : Z) (o : op) (s : session_t) :
  is_uint16 (my_seq s) ->
  exists k : nat,
    (k <= length (outgoing_data s ++ queued [o]))%nat /\
    outgoing_data (final (run_op msz o s))
    = skipn k (outgoing_data s ++ queued [o]) /\
    my_seq (final (run_op msz o s)) = (my_seq s + Z.of_nat k) mod 65536.
Proof.
  destruct s as [i ms ts st cl mx nm inc out].
  cbn [my_seq outgoing_data]. intros Hms.
  assert (Hsame : ms = (ms + Z.of_nat 0) mod 65536)
    by (cbn [Z.of_nat]; rewrite Z.add_0_r, Z.mod_small; [reflexivity|exact Hms]).
  destruct o as [data | [[sid b]|] | | | nm']; cbn [run_op queued];
    rewrite ?app_nil_r.
  - exists 0%nat.
    destruct st, nm; split_cases; cbn [final outgoing_data my_seq skipn];
      unfold buffer_add_bytes; (split; [lia|split; [reflexivity|exact Hsame]]).
  - destruct st, nm; try destruct b as [seq o n|seq ack data| |t];
      split_cases; cbn [final outgoing_data my_seq];
      try (exists 0%nat; split; [lia|split; [reflexivity|exact Hsame]]).
    all: match goal with
         | |- context [buffer_consume _ ?n] =>
             match n with
             | bytes_acked_of ?a ?m =>
                 pose proof (bytes_acked_of_range a m) as Hr
             end;
             repeat match goal with
               | H : negb _ = false |- _ => apply negb_false_iff in H
               | H : (_ <=? _) = true |- _ => apply Z.leb_le in H
               | H : (_ =? _) = true |- _ => apply Z.eqb_eq in H
               end;
             exists (Z.to_nat n);
             unfold buffer_get_remaining_bytes, buffer_consume in *;
             (split; [lia|split; [reflexivity|]]);
             rewrite Z2Nat.id by lia; rewrite ?land_FFFF_mod;
             try reflexivity;
             match goal with
             | H : n = 0 |- _ =>
                 rewrite H, Z.add_0_r, Z.mod_small; [reflexivity|exact Hms]
             end
         end.
  - exists 0%nat. cbn. split; [lia|split; [reflexivity|exact Hsame]].
  - exists 0%nat. rewrite session_do_actions_final.
    cbn [outgoing_data my_seq skipn].
    split; [lia|split; [reflexivity|exact Hsame]].
  - exists 0%nat.
    destruct inc, out; cbn; (split; [lia|split; [reflexivity|exact Hsame]]).
  - exists 0%nat. cbn. split; [lia|split; [reflexivity|exact Hsame]].
Qed.

(** X15: the outgoing queue is a faithful byte stream.  After any sequence
    of operations that has not terminated the process, the queue is what
    remains of the initial queue followed by all the bytes the owner queued,
    in order, once some [k] bytes were taken off its head; nothing is
    reordered, duplicated or dropped elsewhere, and my_seq has advanced by
    exactly [k] modulo 65536. *)
Theorem outgoing_stream_integrity
        (msz : Z) (os : list op) (s : session_t) :
  is_uint16 (my_seq s) ->
  result (run_ops msz os s) = Ret tt ->
  exists k : nat,
    (k <= length (outgoing_data s ++ queued os))%nat /\
    outgoing_data (final (run_ops msz os s))
    = skipn k (outgoing_data s ++ queued os) /\
    my_seq (final (run_ops msz os s)) = (my_seq s + Z.of_nat k) mod 65536.
Proof.
  revert s. induction os as [|o os IH]; intros s Hms.
  - intros _. exists 0%nat. cbn. rewrite app_nil_r, Z.add_0_r.
    split; [lia|]. split; [reflexivity|].
    symmetry. apply Z.mod_small. exact Hms.
  - rewrite queued_cons. cbn [run_ops]. unfold bind.
    destruct (run_op_stream msz o s Hms) as (k1 & Hk1 & Hout1 & Hseq1).
    destruct (run_op msz o s) as [[[]|code] s1 t1];
      cbn [final result] in *; [|discriminate].
    assert (Hms1 : is_uint16 (my_seq s1)).
    { rewrite Hseq1. apply Z.mod_pos_bound. lia. }
    specialize (IH s1 Hms1).
    destruct (run_ops msz os s1) as [r s2 t2]. cbn [final result] in *.
    intros Hr. destruct (IH Hr) as (k2 & Hk2 & Hout2 & Hseq2).
    exists (k2 + k1)%nat.
    rewrite Hout1 in Hk2, Hout2.
    rewrite length_app, length_skipn in Hk2.
    assert (Hjoin : skipn k1 (outgoing_data s ++ queued [o]) ++ queued os
                    = skipn k1 (outgoing_data s ++ queued [o] ++ queued os)).
    { rewrite (app_assoc (outgoing_data s)).
      rewrite (skipn_app k1 (outgoing_data s ++ queued [o]) (queued os)).
      replace (k1 - length (outgoing_data s ++ queued [o]))%nat
        with 0%nat by lia.
      reflexivity. }
    split; [|split].
    + rewrite !length_app in *. lia.
    + rewrite Hout2, Hjoin, skipn_skipn. reflexivity.
    + rewrite Hseq2, Hseq1, Zplus_mod_idemp_l. f_equal. lia.
Qed.

Lemma outgoing_stream_integrity_witness :
  exists k : nat,
    (k <= length ([x41; x42; x43; x44; x45] ++ [x46; x47]))%nat /\
    outgoing_data
      (final (run_ops 7 [op_recv (Some ack_to_0002); op_send [x46; x47]]
                wraparound_session))
    = skipn k ([x41; x42; x43; x44; x45] ++ [x46; x47]) /\
    my_seq
      (final (run_ops 7 [op_recv (Some ack_to_0002); op_send [x46; x47]]
                wraparound_session))
    = (0xFFFE + Z.of_nat k) mod 65536.
Proof.
  apply (outgoing_stream_integrity 7
           [op_recv (Some ack_to_0002); op_send [x46; x47]]
           wraparound_session).
  - unfold is_uint16. cbn. lia.
  - reflexivity.
Defined.

Lemma delivered_app (t1 t2 : list event) :
  delivered (t1 ++ t2) = delivered t1 ++ delivered t2.
Proof. unfold delivered. apply flat_map_app. Qed.

Lemma sent_app (t1 t2 : list event) :
  sent (t1 ++ t2) = sent t1 ++ sent t2.
Proof. unfold sent. apply flat_map_app. Qed.

(** In state ESTABLISHED one operation moves their_seq by the number of
    bytes it delivers. *)
Lemma run_op_their_seq (msz : Z) (o : op) (s : session_t) :
  state s = SESSION_STATE_ESTABLISHED ->
  is_uint16 (their_seq s) ->
  their_seq (final (run_op msz o s))
  = (their_seq s
     + Z.of_nat (length (concat (delivered (trace (run_op msz o s))))))
    mod 65536.
Proof.
  destruct s as [i ms ts st cl mx nm inc out].
  cbn [state their_seq]. intros -> Hts.
  assert (Hsame : ts = (ts + Z.of_nat 0) mod 65536)
    by (cbn [Z.of_nat]; rewrite Z.add_0_r, Z.mod_small; [reflexivity|exact Hts]).
  destruct o as [data | [[sid b]|] | | | nm']; cbn [run_op].
  - split_cases. exact Hsame.
  - destruct b as [seq o n|seq ack data| |t]; split_cases;
      cbn [final their_seq trace delivered flat_map concat app length];
      rewrite ?app_nil_r, ?land_FFFF_mod; try exact Hsame; try reflexivity.
    all: match goal with
         | H : (0 <? Z.of_nat (length ?d)) = false |- _ =>
             apply Z.ltb_ge in H;
             replace (Z.of_nat (length d)) with 0 by lia;
             reflexivity
         end.
  - exact Hsame.
  - rewrite session_do_actions_final.
    rewrite session_do_actions_run, do_send_stuff_established by reflexivity.
    destruct (teardown_due _); exact Hsame.
  - destruct inc, out; exact Hsame.
  - exact Hsame.
Qed.

(** X16: the count of received bytes is exact.  From state ESTABLISHED on,
    after any sequence of operations their_seq has advanced, modulo 65536,
    by exactly the total number of bytes that were handed to the receive
    callback: every byte delivered is counted once, and nothing is counted
    that was not delivered. *)
Theorem their_seq_counts_delivered
        (msz : Z) (os : list op) (s : session_t) :
  state s = SESSION_STATE_ESTABLISHED ->
  is_uint16 (their_seq s) ->
  their_seq (final (run_ops msz os s))
  = (their_seq s
     + Z.of_nat (length (concat (delivered (trace (run_ops msz os s))))))
    mod 65536.
Proof.
  revert s. induction os as [|o os IH]; intros s Hst Hts.
  - cbn. rewrite Z.add_0_r. symmetry. apply Z.mod_small. exact Hts.
  - cbn [run_ops]. unfold bind.
    pose proof (run_op_their_seq msz o s Hst Hts) as Hstep.
    assert (Hst1 : state (final (run_op msz o s)) = SESSION_STATE_ESTABLISHED).
    { destruct (run_op_state msz o s) as [Hsame | [Hnew _]]; congruence. }
    destruct (run_op msz o s) as [[[]|code] s1 t1];
      cbn [final trace] in *; [|exact Hstep].
    assert (Hts1 : is_uint16 (their_seq s1)).
    { rewrite Hstep. apply Z.mod_pos_bound. lia. }
    specialize (IH s1 Hst1 Hts1).
    destruct (run_ops msz os s1) as [r s2 t2]. cbn [final trace] in *.
    rewrite IH, Hstep, delivered_app, concat_app, length_app.
    rewrite Zplus_mod_idemp_l. f_equal. lia.
Qed.

Lemma their_seq_counts_delivered_witness :
  their_seq
    (final (run_ops 7
              [op_recv (Some ack_to_0002);
               op_recv (Some (mk_packet 7 (PACKET_TYPE_MSG 101 2
                                             [x62; x63])))]
              (established_session 0xFFFE [x41; x42; x43; x44; x45])))
  = (100
     + Z.of_nat
         (length
            (concat
               (delivered
                  (trace
                     (run_ops 7
                        [op_recv (Some ack_to_0002);
                         op_recv (Some (mk_packet 7
                                          (PACKET_TYPE_MSG 101 2
                                             [x62; x63])))]
                        (established_session 0xFFFE
                           [x41; x42; x43; x44; x45])))))))
    mod 65536.
Proof.
  apply (their_seq_counts_delivered 7
           [op_recv (Some ack_to_0002);
            op_recv (Some (mk_packet 7 (PACKET_TYPE_MSG 101 2 [x62; x63])))]
           (established_session 0xFFFE [x41; x42; x43; x44; x45])).
  - reflexivity.
  - unfold is_uint16. cbn. lia.
Defined.

(** ** Before and after establishment *)

Lemma run_op_new_quiet (msz : Z) (o : op) (s : session_t) :
  state s = SESSION_STATE_NEW ->
  delivered (trace (run_op msz o s)) = [] /\
  existsb is_msg (sent (trace (run_op msz o s))) = false.
Proof.
  destruct s as [i ms ts st cl mx nm inc out]. cbn [state]. intros ->.
  destruct o as [data | [[sid b]|] | | | nm']; cbn [run_op].
  - destruct nm; split_cases; cbn; auto.
  - destruct b, nm; split_cases; cbn; auto;
      match goal with
      | H : _ && false = true |- _ => rewrite andb_false_r in H; discriminate H
      end.
  - cbn. auto.
  - destruct nm; split_cases; cbn; auto.
  - split_cases; cbn; auto.
  - cbn. auto.
Qed.

(** X17: nothing flows before establishment.  As long as the session is in
    state NEW, through any sequence of operations, no byte is handed to
    the receive callback and no MSG packet is sent: the data the owner
    queues in the meantime stays in the queue. *)
Theorem no_data_before_established
        (msz : Z) (os : list op) (s : session_t) :
  state s = SESSION_STATE_NEW ->
  state (final (run_ops msz os s)) = SESSION_STATE_NEW ->
  delivered (trace (run_ops msz os s)) = [] /\
  existsb is_msg (sent (trace (run_ops msz os s))) = false.
Proof.
  revert s. induction os as [|o os IH]; intros s Hst.
  - cbn. auto.
  - cbn [run_ops]. unfold bind.
    pose proof (run_op_new_quiet msz o s Hst) as [Hd1 Hm1].
    pose proof (run_op_state msz o s) as Hstate.
    destruct (run_op msz o s) as [[[]|code] s1 t1] eqn:Hrun;
      cbn [final trace] in *.
    + pose proof (run_ops_established msz os s1) as Hest.
      specialize (IH s1).
      destruct (run_ops msz os s1) as [r s2 t2]. cbn [final trace] in *.
      intros Hfin.
      assert (Hst1 : state s1 = SESSION_STATE_NEW).
      { destruct Hstate as [Hsame | (_ & p & seq & options & nm & _ & _ & _
                                       & Heq)].
        - congruence.
        - injection Heq as Hs1 _. rewrite Hs1 in Hest.
          specialize (Hest eq_refl). congruence. }
      destruct (IH Hst1 Hfin) as [Hd2 Hm2].
      rewrite delivered_app, sent_app, existsb_app, Hd1, Hd2, Hm1, Hm2.
      auto.
    + intros _. auto.
Qed.

Lemma no_data_before_established_witness :
  delivered
    (trace (run_ops 7
              [op_send [x4b];
               op_recv (Some (mk_packet 7 (PACKET_TYPE_MSG 0 0xFFFE [x61])));
               op_do_actions] scenario_new_session)) = [] /\
  existsb is_msg
    (sent (trace (run_ops 7
                    [op_send [x4b];
                     op_recv (Some (mk_packet 7
                                      (PACKET_TYPE_MSG 0 0xFFFE [x61])));
                     op_do_actions] scenario_new_session))) = false.
Proof.
  apply (no_data_before_established 7
           [op_send [x4b];
            op_recv (Some (mk_packet 7 (PACKET_TYPE_MSG 0 0xFFFE [x61])));
            op_do_actions] scenario_new_session).
  - reflexivity.
  - reflexivity.
Defined.

Lemma session_recv_full_ack (msz : Z) (s : session_t) (p : packet_t) :
  wf_session s ->
  state s = SESSION_STATE_ESTABLISHED ->
  0 < buffer_get_remaining_bytes (outgoing_data s) < 65536 ->
  session_id p = id s ->
  body p
  = PACKET_TYPE_MSG (their_seq s)
      ((my_seq s + buffer_get_remaining_bytes (outgoing_data s)) mod 65536)
      [] ->
  session_recv msz (Some p) s
  = mk_outcome (Ret tt)
      (set_my_seq
         ((my_seq s + buffer_get_remaining_bytes (outgoing_data s))
          mod 65536)
         (set_outgoing_data [] s)) [].
Proof.
  intros (_ & Hms & Hts) Hst Hlen Hid Hbody.
  set (len := buffer_get_remaining_bytes (outgoing_data s)) in *.
  assert (Hn : bytes_acked_of ((my_seq s + len) mod 65536) (my_seq s) = len).
  { rewrite bytes_acked_of_mod, Zminus_mod_idemp_l.
    replace (my_seq s + len - my_seq s) with len by lia.
    apply Z.mod_small. lia. }
  rewrite (session_recv_msg_accepted msz s p ((my_seq s + len) mod 65536) []);
    [| exact Hst | exact Hid | exact Hbody | rewrite Hn; fold len; lia ].
  rewrite Hn.
  assert (Hdrop : buffer_consume (outgoing_data s) len = []).
  { unfold buffer_consume. apply skipn_all2.
    subst len. unfold buffer_get_remaining_bytes. lia. }
  rewrite Hdrop.
  destruct (Z.eqb_spec len 0) as [Hz|_]; [lia|].
  cbn [length Z.of_nat outgoing_data buffer_get_remaining_bytes
       Z.ltb Z.compare andb app].
  rewrite Z.add_0_r, (Z.mod_small (their_seq s) 65536) by exact Hts.
  destruct s as [i ms ts st cl mx nm inc out].
  cbn in Hst. subst st. reflexivity.
Qed.

(** X18: round trip of the outgoing stream.  An ESTABLISHED session with an
    empty queue is given fewer than 65536 bytes to send and then receives a
    MSG without data that acknowledges all of them: the send emits one MSG
    with the first [min (max_packet_payload, length)] bytes, the
    acknowledgement emits nothing, and afterwards the queue is empty again,
    my_seq has advanced by the number of bytes modulo 65536, and nothing
    else has changed. *)
Theorem send_then_full_ack
        (msz : Z) (s : session_t) (p : packet_t) (data : list byte) :
  wf_session s ->
  state s = SESSION_STATE_ESTABLISHED ->
  outgoing_data s = [] ->
  0 < Z.of_nat (length data) < 65536 ->
  session_id p = id s ->
  body p
  = PACKET_TYPE_MSG (their_seq s)
      ((my_seq s + Z.of_nat (length data)) mod 65536) [] ->
  run_ops msz [op_send data; op_recv (Some p)] s
  = mk_outcome (Ret tt)
      (set_my_seq ((my_seq s + Z.of_nat (length data)) mod 65536) s)
      [outgoing_data_callback (id s)
         (mk_packet (id s)
            (PACKET_TYPE_MSG (my_seq s) (their_seq s)
               (firstn (Z.to_nat (Z.min (max_packet_payload msz s)
                                        (Z.of_nat (length data))))
                       data)))].
Proof.
  intros Hwf Hst Hout Hlen Hid Hbody.
  set (s1 := set_outgoing_data data s).
  assert (Hsend : session_send msz data s
                  = mk_outcome (Ret tt) s1
                      [outgoing_data_callback (id s)
                         (mk_packet (id s)
                            (PACKET_TYPE_MSG (my_seq s) (their_seq s)
                               (firstn (Z.to_nat
                                          (Z.min (max_packet_payload msz s)
                                                 (Z.of_nat (length data))))
                                       data)))]).
  { unfold session_send, bind, modify, buffer_add_bytes.
    rewrite Hout. cbn [app]. fold s1.
    rewrite (do_send_stuff_established msz s1) by exact Hst.
    rewrite (peek_min (outgoing_data s1)). reflexivity. }
  assert (Hrecv : session_recv msz (Some p) s1
                  = mk_outcome (Ret tt)
                      (set_my_seq
                         ((my_seq s + Z.of_nat (length data)) mod 65536) s)
                      []).
  { rewrite (session_recv_full_ack msz s1 p);
      [| exact Hwf | exact Hst | exact Hlen | exact Hid | exact Hbody ].
    subst s1. destruct s as [i ms ts st cl mx nm inc out].
    cbn in Hout. subst out. reflexivity. }
  cbn [run_ops run_op].
  rewrite (bind_ret _ _ s s1 tt _ Hsend).
  rewrite (bind_ret _ _ s1 _ tt [] Hrecv).
  reflexivity.
Qed.

Lemma send_then_full_ack_witness :
  run_ops 7 [op_send [x41; x42; x43; x44; x45];
             op_recv (Some (mk_packet 7 (PACKET_TYPE_MSG 100 3 [])))]
          (established_session 0xFFFE [])
  = mk_outcome (Ret tt) (established_session 3 [])
      [outgoing_data_callback 7
         (mk_packet 7 (PACKET_TYPE_MSG 0xFFFE 100 [x41; x42; x43; x44]))].
Proof.
  apply (send_then_full_ack 7 (established_session 0xFFFE [])
           (mk_packet 7 (PACKET_TYPE_MSG 100 3 []))
           [x41; x42; x43; x44; x45]).
  - unfold wf_session, is_uint16. cbn. lia.
  - reflexivity.
  - reflexivity.
  - cbn. lia.
  - reflexivity.
  - reflexivity.
Defined.
